(** * Event analysis: canonicalization and key discovery

    A shallow embedding of [edx/analytics/tasks/event_analysis.py]
    (Python 2): the segment classifier [get_numeric_slug], the key
    canonicalizer [canonicalize_key], the structural walker
    [get_key_names], the event-type canonicalizer
    [canonicalize_event_type], and the per-record code of
    [EventAnalysisTask] ([get_user_info_from_event], [mapper]).

    Conventions of the embedding.
    - A Python string is a [string] of bytes; the character classes
      ([isdigit], [lower], [strip], the regular expression's [\d]) are the
      ASCII ones.  This is a byte string ([str]) as it is, and a [unicode]
      string whose characters are ASCII as well: on such text the two
      types behave alike.
    - Where the code's behaviour on [unicode] text differs, the text is the
      [string] of its code points, each below 256: [unicode_strip] and
      [unicode_isdigit] are the methods of [unicode], and
      [get_numeric_slug_unicode] is the classifier on [unicode] text.  A
      property that needs ASCII text says so ([is_ascii]).
    - [len], indices and slices are [nat]; the formatting of a length by
      ["{}".format] is its decimal numeral.
    - A Python exception is an explicit outcome ([Raise]); Python's [None]
      result of the canonicalizer is [None] under [Return].
    - A [dict] is an association list in iteration order whose keys are
      pairwise distinct, so that [obj.get(key)] for a key of [obj.keys()]
      is the value paired with it. *)

From Stdlib Require Import Bool Arith List Lia ZArith.
From Stdlib Require Import Strings.Ascii Strings.String.
From Stdlib Require Import Numbers.DecimalString.
From Stdlib Require OrderedTypeEx.
From Stdlib Require Import Sorting.Permutation Sorting.Sorted.
Import ListNotations.

Open Scope string_scope.
Open Scope list_scope.

(** ** Python string primitives *)

Module Py.

(** [c in chars] for a character and a string used as a character set. *)
Fixpoint char_in (c : ascii) (chars : string) : bool :=
  match chars with
  | EmptyString => false
  | String d rest => Ascii.eqb c d || char_in c rest
  end.

(** [c.isdigit()] for one byte. *)
Definition digit_char (c : ascii) : bool := char_in c "0123456789".

(** [all(p(c) for c in s)] and [any(p(c) for c in s)]. *)
Fixpoint all_chars (p : ascii -> bool) (s : string) : bool :=
  match s with
  | EmptyString => true
  | String c rest => p c && all_chars p rest
  end.

Fixpoint any_char (p : ascii -> bool) (s : string) : bool :=
  match s with
  | EmptyString => false
  | String c rest => p c || any_char p rest
  end.

(** [s.isdigit()]: false on the empty string. *)
Definition isdigit (s : string) : bool :=
  match s with
  | EmptyString => false
  | _ => all_chars digit_char s
  end.

(** ["{}".format(n)] for a length. *)
Definition format_nat (n : nat) : string :=
  NilZero.string_of_uint (Nat.to_uint n).

(** [s.startswith(p)]. *)
Definition startswith (s p : string) : bool := String.prefix p s.

(** [sub in s] for strings. *)
Fixpoint contains (sub s : string) : bool :=
  String.prefix sub s ||
  match s with
  | EmptyString => false
  | String _ rest => contains sub rest
  end.

(** [s.split(sep)] for a one-character separator: never the empty list. *)
Fixpoint split (sep : ascii) (s : string) : list string :=
  match s with
  | EmptyString => [EmptyString]
  | String c rest =>
      if Ascii.eqb c sep then EmptyString :: split sep rest
      else match split sep rest with
           | [] => [String c EmptyString]
           | x :: xs => String c x :: xs
           end
  end.

(** [sep.join(l)]. *)
Definition join (sep : string) (l : list string) : string := String.concat sep l.

(** [s.replace(old, new)]: the occurrences of [old] are found left to right
    and do not overlap; for an empty [old], [new] is put before every
    character and at the end.  [skip] counts the characters of the
    occurrence just replaced that are still to be dropped. *)
Fixpoint replace_from (old new : string) (skip : nat) (s : string) : string :=
  match s with
  | EmptyString => EmptyString
  | String c rest =>
      match skip with
      | S k => replace_from old new k rest
      | O =>
          if String.prefix old s
          then new ++ replace_from old new (String.length old - 1) rest
          else String c (replace_from old new 0 rest)
      end
  end.

Fixpoint intersperse (new : string) (s : string) : string :=
  match s with
  | EmptyString => new
  | String c rest => new ++ String c (intersperse new rest)
  end.

Definition replace (s old new : string) : string :=
  match old with
  | EmptyString => intersperse new s
  | _ => replace_from old new 0 s
  end.

(** [s.lower()] on bytes. *)
Definition lower_char (c : ascii) : ascii :=
  let n := nat_of_ascii c in
  if ((65 <=? n) && (n <=? 90))%nat then ascii_of_nat (n + 32) else c.

Fixpoint lower (s : string) : string :=
  match s with
  | EmptyString => EmptyString
  | String c rest => String (lower_char c) (lower rest)
  end.

(** [s.strip()]: the bytes [" \t\n\r\x0b\x0c"] are removed at both ends. *)
Definition space_char (c : ascii) : bool :=
  let n := nat_of_ascii c in
  ((n =? 32) || ((9 <=? n) && (n <=? 13)))%nat.

Fixpoint lstrip (s : string) : string :=
  match s with
  | EmptyString => EmptyString
  | String c rest => if space_char c then lstrip rest else s
  end.

Fixpoint rstrip (s : string) : string :=
  match s with
  | EmptyString => EmptyString
  | String c rest =>
      match rstrip rest with
      | EmptyString => if space_char c then EmptyString else String c EmptyString
      | r => String c r
      end
  end.

Definition strip (s : string) : string := rstrip (lstrip s).

(** [l[i] = x] for an index known to be in range. *)
Fixpoint set_item {A : Type} (l : list A) (i : nat) (x : A) : list A :=
  match l, i with
  | [], _ => []
  | _ :: rest, O => x :: rest
  | y :: rest, S j => y :: set_item rest j x
  end.

(** The one-character string of a double quote. *)
Definition dquote : string := String (ascii_of_nat 34) EmptyString.

(** [x in l] for a list of strings. *)
Definition str_in_list (x : string) (l : list string) : bool :=
  existsb (String.eqb x) l.

(** [sorted(l)] for a list of strings: insertion sort on the byte order. *)
Fixpoint insert_sorted (x : string) (l : list string) : list string :=
  match l with
  | [] => [x]
  | y :: rest => if String.leb x y then x :: l else y :: insert_sorted x rest
  end.

Definition sorted (l : list string) : list string :=
  fold_right insert_sorted [] l.

End Py.

(** ** Unicode text *)

(** A byte string that the ASCII codec decodes; a [unicode] string that it
    encodes. *)
Definition is_ascii (s : string) : bool :=
  Py.all_chars (fun c => (nat_of_ascii c <? 128)%nat) s.

(** [s.strip()] on a [unicode] string: besides the white space of a byte
    string, the separators [\x1c] to [\x1f], the next line [\x85] and the
    no-break space [\xa0] are removed. *)
Definition unicode_space_char (c : ascii) : bool :=
  let n := nat_of_ascii c in
  (Py.space_char c || ((28 <=? n) && (n <=? 31)) || (n =? 133) || (n =? 160))%nat.

Fixpoint unicode_lstrip (s : string) : string :=
  match s with
  | EmptyString => EmptyString
  | String c rest => if unicode_space_char c then unicode_lstrip rest else s
  end.

Fixpoint unicode_rstrip (s : string) : string :=
  match s with
  | EmptyString => EmptyString
  | String c rest =>
      match unicode_rstrip rest with
      | EmptyString => if unicode_space_char c then EmptyString else String c EmptyString
      | r => String c r
      end
  end.

Definition unicode_strip (s : string) : string := unicode_rstrip (unicode_lstrip s).

(** [c.isdigit()] for a character of a [unicode] string: the digits of
    ASCII and the superscripts [\xb2], [\xb3] and [\xb9], which have a digit
    value without being decimal digits. *)
Definition unicode_digit_char (c : ascii) : bool :=
  let n := nat_of_ascii c in
  (Py.digit_char c || (n =? 178) || (n =? 179) || (n =? 185))%nat.

(** [s.isdigit()] on a [unicode] string. *)
Definition unicode_isdigit (s : string) : bool :=
  match s with
  | EmptyString => false
  | _ => Py.all_chars unicode_digit_char s
  end.

(** ** Identity hints

    [user_info] is a dict from hint name to the string observed for the
    event. *)

Definition hints := list (string * string).

(** [user_info.iterkeys()]. *)
Definition iterkeys (user_info : hints) : list string := map fst user_info.

(** [unicode(user_info.get(info_name))]: [get] gives [None] on a missing
    key, whose text is ["None"]. *)
Definition unicode_get (user_info : hints) (info_name : string) : string :=
  match find (fun kv => String.eqb (fst kv) info_name) user_info with
  | Some kv => snd kv
  | None => "None"
  end.

(** ** The segment classifier *)

Definition hex_digits : string := "0123456789abcdefABCDEF".

(** The loop over the sorted hint names of [get_numeric_slug]: the first
    name whose value is the segment. *)
Definition matching_hint (val_str : string) (user_info : hints) : option string :=
  find (fun info_name => String.eqb val_str (unicode_get user_info info_name))
       (Py.sorted (iterkeys user_info)).

(** [get_numeric_slug] on a byte string, which is what it is as well on a
    [unicode] string of ASCII characters.  With hints,
    [unicode(value_string)] and [unicode(user_info.get(info_name))] are the
    texts themselves, as these conversions are on ASCII text. *)
Definition get_numeric_slug (value_string : string) (user_info : option hints) : string :=
  if (String.length value_string =? 0)%nat then ""
  else
    match match user_info with
          | Some ui => matching_hint value_string ui
          | None => None
          end with
    | Some info_name => "(" ++ info_name ++ ")"
    | None =>
        if Py.isdigit value_string
        then "(int" ++ Py.format_nat (String.length value_string) ++ ")"
        else if Py.all_chars (fun c => Py.char_in c hex_digits) value_string
        then "(hex" ++ Py.format_nat (String.length value_string) ++ ")"
        else if Py.any_char Py.digit_char value_string
        then "(alnum" ++ Py.format_nat (String.length value_string) ++ ")"
        else value_string
    end.

(** The same function on a [unicode] string: [isdigit] is the method of
    [unicode], and [len] counts characters. *)
Definition get_numeric_slug_unicode (value_string : string) (user_info : option hints)
  : string :=
  if (String.length value_string =? 0)%nat then ""
  else
    match match user_info with
          | Some ui => matching_hint value_string ui
          | None => None
          end with
    | Some info_name => "(" ++ info_name ++ ")"
    | None =>
        if unicode_isdigit value_string
        then "(int" ++ Py.format_nat (String.length value_string) ++ ")"
        else if Py.all_chars (fun c => Py.char_in c hex_digits) value_string
        then "(hex" ++ Py.format_nat (String.length value_string) ++ ")"
        else if Py.any_char unicode_digit_char value_string
        then "(alnum" ++ Py.format_nat (String.length value_string) ++ ")"
        else value_string
    end.

(** ** The key canonicalizer *)

(** [INPUT_ID_REGEX], the pattern
    [^(?P<input_id>.+_[1234]?\d_[1234]?\d)(_dynamath|_comment|_choiceinput_.* )?$]
    (written here with a space before the closing parenthesis),
    as the backtracking search of [re.match]: every choice is tried in the
    engine's order (greedy first) and the first success is kept. *)
Module InputId.

Definition newline : ascii := ascii_of_nat 10.

(** [s[n:]] and [s[:n]]. *)
Fixpoint drop (n : nat) (s : string) : string :=
  match n, s with
  | O, _ => s
  | S k, EmptyString => EmptyString
  | S k, String _ rest => drop k rest
  end.

Fixpoint take (n : nat) (s : string) : string :=
  match n, s with
  | O, _ => EmptyString
  | S k, EmptyString => EmptyString
  | S k, String c rest => String c (take k rest)
  end.

(** [$] without [re.MULTILINE]: the end of the string, or just before a
    newline that ends the string. *)
Definition at_end (s : string) : bool :=
  match s with
  | EmptyString => true
  | String c EmptyString => Ascii.eqb c newline
  | _ => false
  end.

(** [.*$]: the dot does not match a newline. *)
Fixpoint dot_star_end (s : string) : bool :=
  at_end s ||
  match s with
  | EmptyString => false
  | String c rest => negb (Ascii.eqb c newline) && dot_star_end rest
  end.

(** The optional group [_dynamath], [_comment] or [_choiceinput_] with
    anything after it, then [$], on the rest of the key. *)
Definition suffix_end (s : string) : bool :=
  (String.prefix "_dynamath" s && at_end (drop 9 s))
  || (String.prefix "_comment" s && at_end (drop 8 s))
  || (String.prefix "_choiceinput_" s && dot_star_end (drop 13 s))
  || at_end s.

(** [[1234]?\d]: the lengths it can take at the head of [s], the optional
    character taken first. *)
Definition small_number (s : string) : list nat :=
  match s with
  | String c (String d _) =>
      (if Py.char_in c "1234" && Py.digit_char d then [2] else [])
        ++ (if Py.digit_char c then [1] else [])
  | String c EmptyString => if Py.digit_char c then [1] else []
  | EmptyString => []
  end.

(** The first success of [f] over the candidates. *)
Fixpoint first_some {A B : Type} (f : A -> option B) (l : list A) : option B :=
  match l with
  | [] => None
  | x :: rest => match f x with
                 | Some y => Some y
                 | None => first_some f rest
                 end
  end.

(** [_[1234]?\d_[1234]?\d] followed by the optional suffix and [$]: the
    number of characters up to the end of the [input_id] group. *)
Definition numbers_end (s : string) : option nat :=
  match s with
  | String "_" s1 =>
      first_some
        (fun n1 =>
           match drop n1 s1 with
           | String "_" s2 =>
               first_some
                 (fun n2 =>
                    if suffix_end (drop n2 s2) then Some (1 + n1 + 1 + n2)
                    else None)
                 (small_number s2)
           | _ => None
           end)
        (small_number s1)
  | _ => None
  end.

(** [.+] (greedy, at least one character, no newline) followed by the rest:
    the length of the [input_id] group. *)
Fixpoint group_length (s : string) : option nat :=
  match s with
  | EmptyString => None
  | String c rest =>
      if Ascii.eqb c newline then None
      else match group_length rest with
           | Some n => Some (S n)
           | None => match numbers_end rest with
                     | Some n => Some (S n)
                     | None => None
                     end
           end
  end.

(** [INPUT_ID_REGEX.match(s)], and [match.group('input_id')] when it
    matches. *)
Definition regex_match (s : string) : option string :=
  match group_length s with
  | Some n => Some (take n s)
  | None => None
  end.

End InputId.

Definition delimiter_list : list ascii := ["_"%char; "."%char].

(** The loop over [delimiter_list]: split on the first delimiter present. *)
Fixpoint slug_by_delimiter (delimiters : list ascii) (value_string : string) : string :=
  match delimiters with
  | [] => get_numeric_slug value_string None
  | delimiter :: rest =>
      if Py.contains (String delimiter EmptyString) value_string
      then Py.join (String delimiter EmptyString)
                   (map (fun value => get_numeric_slug value None)
                        (Py.split delimiter value_string))
      else slug_by_delimiter rest value_string
  end.

Definition canonicalize_key (value_string : string) : string :=
  let value_string :=
    match InputId.regex_match value_string with
    | Some input_id_string => Py.replace value_string input_id_string "(input-id)"
    | None => value_string
    end in
  slug_by_delimiter delimiter_list value_string.

(** ** Event payloads *)

(** A decoded JSON value.  A float carries its text; a string is a byte
    string ([str]) or a [unicode] one, with the same text. *)
#[warnings="-register-all"]
Inductive value : Type :=
| VNone
| VBool (b : bool)
| VInt (z : Z)
| VFloat (text : string)
| VStr (s : string)
| VUnicode (s : string)
| VList (l : list value)
| VDict (d : list (string * value)).

Definition format_Z (z : Z) : string := NilZero.string_of_int (Z.to_int z).

(** [unicode(obj)] and [type(obj).__name__] of a leaf (a value that is not
    [None], a dict or a list).  An integer outside the machine range is a
    [long]. *)
Definition unicode_leaf (obj : value) : string :=
  match obj with
  | VBool true => "True"
  | VBool false => "False"
  | VInt z => format_Z z
  | VFloat text => text
  | VStr s => s
  | VUnicode s => s
  | VNone => "None"
  | VList _ | VDict _ => ""
  end.

Definition type_name (obj : value) : string :=
  match obj with
  | VNone => "NoneType"
  | VBool _ => "bool"
  | VInt z => if ((- 2 ^ 63 <=? z) && (z <? 2 ^ 63))%Z then "int" else "long"
  | VFloat _ => "float"
  | VStr _ => "str"
  | VUnicode _ => "unicode"
  | VList _ => "list"
  | VDict _ => "dict"
  end.

(** ** The structural walker *)

Definition url_prefixes : list string :=
  [ "event.export.recommendations";
    "event.information.export.recommendations";
    "event.export.removed_recommendations";
    "event.information.export.removed_recommendations" ].

(** The body of the loop over [user_info.iterkeys()] for one hint: the
    three tests are the arms of one [if]/[elif] chain.  The conversions of
    these lines between [str] and [unicode] ([unicode(obj)], the quoted
    form made from a byte-string template) are those of ASCII text, on
    which they succeed. *)
Definition leaf_entry_type (obj_str : string) (user_info : hints) (info_name : string)
  : list string :=
  let user_value := unicode_get user_info info_name in
  if String.eqb user_value obj_str then [info_name]
  else if String.eqb user_value (Py.dquote ++ obj_str ++ Py.dquote)%string then [(info_name ++ "-quoted")%string]
  else if Py.contains (unicode_get user_info info_name) obj_str
  then [("contains-" ++ info_name)%string]
  else [].

(** The leaf branch: the entry types of all hints, or the type name when
    there is none. *)
Definition leaf_entry_types (obj : value) (user_info : option hints) : list string :=
  let entry_types :=
    match user_info with
    | Some ui => flat_map (leaf_entry_type (unicode_leaf obj) ui) (iterkeys ui)
    | None => []
    end in
  if (List.length entry_types =? 0)%nat then [type_name obj] else entry_types.

(** [stopwords] after its first line: lower-cased, or empty when [None]. *)
Definition lower_stopwords (stopwords : option (list string)) : list string :=
  match stopwords with
  | Some words => map Py.lower words
  | None => []
  end.

(** [get_key_names(obj, prefix, stopwords, user_info)].  The lower-casing of
    the stop words is repeated at every call, as in the source: the
    recursive calls pass the lower-cased list. *)
Fixpoint get_key_names (obj : value) (prefix : string)
         (stopwords : option (list string)) (user_info : option hints)
  : list string :=
  let stopwords := lower_stopwords stopwords in
  match obj with
  | VNone => []
  | VDict d =>
      (if (List.length d =? 0)%nat then [(prefix ++ "(emptydict)")%string] else [])
        ++ flat_map
             (fun kv =>
                let key := fst kv in
                let value := snd kv in
                let canonical_key := canonicalize_key key in
                let canonical_key :=
                  if Py.str_in_list prefix url_prefixes then "(url)"
                  else canonical_key in
                let new_prefix := (prefix ++ "." ++ canonical_key)%string in
                if Py.str_in_list (Py.lower key) stopwords
                then [(new_prefix ++ "(TRIMMED)")%string]
                else get_key_names value new_prefix (Some stopwords) user_info)
             d
  | VList l =>
      let new_prefix := (prefix ++ "[]")%string in
      match l with
      | [] => [new_prefix]
      | entry :: _ => get_key_names entry new_prefix (Some stopwords) user_info
      end
  | _ =>
      map (fun entry_type => (prefix ++ "(" ++ entry_type ++ ")")%string)
          (leaf_entry_types obj user_info)
  end.

(** ** The event-type canonicalizer *)

Inductive exn : Type :=
| IndexError
| AttributeError
| TypeError
| UnicodeEncodeError.

(** The outcome of a call: a value, or an exception that leaves it. *)
Inductive result (A : Type) : Type :=
| Return (a : A)
| Raise (e : exn).

Arguments Return {A} a.
Arguments Raise {A} e.

(** [event_type_values[i]] for an index the code has checked. *)
Definition item (event_type_values : list string) (i : nat) : string :=
  nth i event_type_values "".

(** The [wiki] branch: [last] after the two adjustments for a trailing
    empty segment and for [moment.js]. *)
Definition wiki_last (event_type_values : list string) : nat :=
  let last := List.length event_type_values - 1 in
  let last :=
    if (String.length (item event_type_values last) =? 0)%nat then last - 1
    else last in
  if String.eqb (item event_type_values last) "moment.js" then last - 1 else last.

(** The first [index] of [range(4, last + 1)] whose segment starts with an
    underscore. *)
Definition wiki_command (event_type_values : list string) (last : nat) : option nat :=
  find (fun index => Py.startswith (item event_type_values index) "_")
       (seq 4 (last + 1 - 4)).

(** [for index in range(4, last + 1): event_type_values[index] = '(wikislug)']. *)
Definition wiki_slug (event_type_values : list string) (last : nat) : list string :=
  fold_left (fun values index => Py.set_item values index "(wikislug)")
            (seq 4 (last + 1 - 4)) event_type_values.

(** The checks of the [pdfbook] branch under [exclude_excluded]: [true] when
    one of them returns [None]. *)
Definition pdfbook_mismatch (event_type_values : list string) : bool :=
  let n := List.length event_type_values in
  let nonempty i := (0 <? String.length (item event_type_values i))%nat in
  ((4 <? n)%nat && nonempty 4 && negb (Py.isdigit (item event_type_values 4)))
  || ((5 <? n)%nat && nonempty 5 && negb (String.eqb (item event_type_values 5) "chapter"))
  || ((6 <? n)%nat && nonempty 6 && negb (Py.isdigit (item event_type_values 6)))
  || ((7 <? n)%nat && nonempty 7 && negb (Py.isdigit (item event_type_values 7)))
  || (8 <? n)%nat.

(** The top-level routes kept under [exclude_excluded] when nothing follows
    them. *)
Definition noise_routes : list string :=
  ["info"; "progress"; "course_wiki"; "about"; "teams"].

(** The dispatch on [event_type_values[3]] of a path under
    [/courses/(course_id)]: the rewritten segments, or [None] where the
    source returns [None]. *)
Definition rewrite_route (event_type_values : list string)
           (exclude_excluded disable_slugging : bool) : option (list string) :=
  let n := List.length event_type_values in
  let route := item event_type_values 3 in
  if String.eqb route "xblock" then
    if exclude_excluded then None
    else if (6 <=? n)%nat
            && Py.str_in_list (item event_type_values 5) ["handler"; "handler_noauth"]
            && negb disable_slugging
    then Some (Py.set_item event_type_values 4 "(xblock-loc)")
    else Some event_type_values
  else if String.eqb route "submission_history" then
    if (5 <=? n)%nat && negb disable_slugging
    then Some (firstn 3 event_type_values ++ ["(maybe_username)"; "(block-loc)"])
    else Some event_type_values
  else if String.eqb route "jump_to_id" then
    if (n =? 5)%nat && negb disable_slugging
    then Some (Py.set_item event_type_values 4 "(block-id)")
    else Some event_type_values
  else if String.eqb route "jump_to" then
    if exclude_excluded then None
    else if negb disable_slugging
    then Some (firstn 3 event_type_values ++ ["(block-loc)"])
    else Some event_type_values
  else if String.eqb route "courseware" then
    if negb disable_slugging
    then Some (firstn 4 event_type_values ++ ["(courseware-loc)"])
    else Some event_type_values
  else if String.eqb route "xqueue" then
    if exclude_excluded then None
    else
      let last := n - 1 in
      if (6 <=? last)%nat
         && Py.str_in_list (item event_type_values last) ["score_update"; "ungraded_response"]
         && negb disable_slugging
      then Some (firstn 5 event_type_values ++ ["(block-loc)"] ++ skipn last event_type_values)
      else Some event_type_values
  else if String.eqb route "wiki" then
    let last := wiki_last event_type_values in
    match wiki_command event_type_values last with
    | Some index =>
        if exclude_excluded then None
        else
          let last := index - 1 in
          if negb disable_slugging then Some (wiki_slug event_type_values last)
          else Some event_type_values
    | None =>
        if negb disable_slugging then Some (wiki_slug event_type_values last)
        else Some event_type_values
    end
  else if String.eqb route "discussion" then
    let event_type_values :=
      if (6 <=? n)%nat && String.eqb (item event_type_values 5) "threads"
      then Py.set_item event_type_values 4 "(discussion-id)"
      else event_type_values in
    let event_type_values :=
      if (7 <=? n)%nat && String.eqb (item event_type_values 4) "forum"
         && Py.str_in_list (item event_type_values 6) ["threads"; "inline"]
      then Py.set_item event_type_values 5 "(forum-id)"
      else event_type_values in
    Some event_type_values
  else if String.eqb route "pdfbook" then
    if exclude_excluded && pdfbook_mismatch event_type_values then None
    else Some event_type_values
  else if exclude_excluded then
    if Py.str_in_list route noise_routes
    then if (4 <? n)%nat then None else Some event_type_values
    else None
  else Some event_type_values.

(** The part of [canonicalize_event_type] after the split: [None] where the
    source returns [None]; [IndexError] where [event_type_values[1]] does
    not exist. *)
Definition rewrite_values (event_type_values : list string)
           (exclude_excluded disable_slugging : bool)
  : result (option (list string)) :=
  match nth_error event_type_values 1 with
  | None => Raise IndexError
  | Some second =>
      if String.eqb second "courses" then
        if (3 <? List.length event_type_values)%nat
           && String.eqb (item event_type_values 2) "(course_id)"
        then Return (rewrite_route event_type_values exclude_excluded disable_slugging)
        else if exclude_excluded then Return None
        else Return (Some event_type_values)
      else if exclude_excluded then Return None
      else Return (Some event_type_values)
  end.

(** The last line: every segment is classified and the segments are joined. *)
Definition join_slugs (event_type_values : list string) (user_info : option hints) : string :=
  Py.join "/" (map (fun value => get_numeric_slug value user_info) event_type_values).

Section CourseRegex.

(** [opaque_key_util.COURSE_REGEX] is not part of this file of the
    repository: its [match] is a parameter, [Some] of the [course_id] group
    when the pattern matches and [None] when it does not. *)
Variable COURSE_REGEX_match : string -> option string.

(** The course id stubbed. *)
Definition stub_course_id (event_type : string) : string :=
  match COURSE_REGEX_match event_type with
  | Some course_id_string => Py.replace event_type course_id_string "(course_id)"
  | None => event_type
  end.

Definition canonicalize_event_type (event_type : string)
           (exclude_implicit exclude_explicit exclude_excluded disable_slugging : bool)
           (user_info : option hints) : result (option string) :=
  if negb (Py.startswith event_type "/") then
    if exclude_implicit then Return None else Return (Some event_type)
  else if exclude_explicit then Return None
  else
    let event_type := stub_course_id event_type in
    let event_type_values := Py.split "/" event_type in
    match rewrite_values event_type_values exclude_excluded disable_slugging with
    | Raise e => Raise e
    | Return None => Return None
    | Return (Some event_type_values) => Return (Some (join_slugs event_type_values user_info))
    end.

End CourseRegex.

(** ** The task: per-record processing *)

Definition bind {A B : Type} (r : result A) (k : A -> result B) : result B :=
  match r with
  | Return a => k a
  | Raise e => Raise e
  end.

Notation "x <- r ;; k" := (bind r (fun x => k))
  (at level 61, r at next level, right associativity).

(** [d.get(key)] on the items of a dict: [None] when the key is missing. *)
Definition lookup {A : Type} (d : list (string * A)) (key : string) : option A :=
  match find (fun kv => String.eqb (fst kv) key) d with
  | Some kv => Some (snd kv)
  | None => None
  end.

(** [d[key] = x] on the items of a dict. *)
Fixpoint dict_set {A : Type} (d : list (string * A)) (key : string) (x : A)
  : list (string * A) :=
  match d with
  | [] => [(key, x)]
  | kv :: rest =>
      if String.eqb (fst kv) key then (key, x) :: rest
      else kv :: dict_set rest key x
  end.

(** [obj.get(key)] and [obj.get(key, {})]: only a dict has [get]. *)
Definition py_get (obj : value) (key : string) : result value :=
  match obj with
  | VDict d => Return (match lookup d key with Some x => x | None => VNone end)
  | _ => Raise AttributeError
  end.

Definition py_get_or_empty (obj : value) (key : string) : result value :=
  match obj with
  | VDict d => Return (match lookup d key with Some x => x | None => VDict [] end)
  | _ => Raise AttributeError
  end.

(** [obj.strip()]: only a string has [strip], and the white space that is
    removed is that of its type. *)
Definition py_strip (obj : value) : result string :=
  match obj with
  | VStr s => Return (Py.strip s)
  | VUnicode s => Return (unicode_strip s)
  | _ => Raise AttributeError
  end.

(** [len(obj)]: a number, a bool and [None] have no length. *)
Definition py_len (obj : value) : result nat :=
  match obj with
  | VStr s | VUnicode s => Return (String.length s)
  | VList l => Return (List.length l)
  | VDict d => Return (List.length d)
  | _ => Raise TypeError
  end.

(** [username <= 5] for a string [username]: in Python 2 a string is
    greater than every number. *)
Definition str_le_int (username : string) (n : nat) : value := VBool false.

(** The settings of a task instance ([self]). *)
Record EventAnalysisTask : Type := {
  course_id : list string;
  exclude_implicit : bool;
  exclude_explicit : bool;
  exclude_context : bool;
  exclude_excluded : bool;
  include_attested : bool;
  disable_slugging : bool;
  check_user : bool;
  (** user id to (username, email), and username to user id; [None] until
      [init_mapper] has read an [auth_user] dump. *)
  auth_user_data : option (list (string * (string * string)));
  username_map : option (list (string * string))
}.

(** The truth value of a dict attribute that may be [None]. *)
Definition truthy {A : Type} (d : option (list A)) : bool :=
  match d with
  | Some (_ :: _) => true
  | _ => false
  end.

Section Task.

Variable self : EventAnalysisTask.

(** The collaborators that are not part of this file of the repository:
    the course-id pattern, the decoding of a line
    ([get_event_and_date_string], [None] for a line that is dropped),
    [eventlog.get_course_id] and [eventlog.get_event_data], and the text of
    a list or a dict under [unicode]. *)
Variable COURSE_REGEX_match : string -> option string.
Variable get_event_and_date_string : string -> option (value * string).
Variable get_course_id : value -> result (option string).
Variable get_event_data : value -> option value.
Variable unicode_container : value -> string.

(** [unicode(obj)]. *)
Definition py_unicode (obj : value) : string :=
  match obj with
  | VList _ | VDict _ => unicode_container obj
  | _ => unicode_leaf obj
  end.

(** The key under which the username is recorded (lines 199 to 205). *)
Definition username_key (username : string) : result string :=
  is_short_int <-
    (if Py.isdigit username
     then n <- py_len (str_le_int username 5) ;; Return (negb (n =? 0)%nat)
     else Return false) ;;
  if is_short_int : bool
  then Return ("username-int" ++ Py.format_nat (String.length username))%string
  else if Py.isdigit username then Return "username-int"
  else if (String.length username <=? 5)%nat
  then Return ("username-" ++ Py.format_nat (String.length username))%string
  else Return "username".

(** [self.auth_user_data.get(user_id, {}).get('username')]: the keys of the
    table are strings, and a list or a dict cannot be looked up. *)
Definition name_for_user_id (table : list (string * (string * string))) (user_id : value)
  : result (option string) :=
  match user_id with
  | VList _ | VDict _ => Raise TypeError
  | VStr s | VUnicode s =>
      Return (match lookup table s with
              | Some entry => Some (fst entry)
              | None => None
              end)
  | _ => Return None
  end.

(** A hint is recorded as its text: its readers only use
    [unicode(user_info.get(info_name))].  The digit test and the length of
    the username and the lookups in the two tables are those of a byte
    string, which are those of a [unicode] string of ASCII characters as
    well. *)
Definition get_user_info_from_event (event : value) : result hints :=
  let user_info : hints := [] in
  if negb (check_user self) then Return user_info
  else
    raw_username <- py_get event "username" ;;
    username <- py_strip raw_username ;;
    key <- username_key username ;;
    let user_info := dict_set user_info key username in
    context <- py_get_or_empty event "context" ;;
    user_id <- py_get context "user_id" ;;
    let user_info :=
      match user_id with
      | VNone => user_info
      | _ =>
          let user_id_str := py_unicode user_id in
          let key :=
            if (String.length user_id_str <=? 4)%nat
            then ("user-id-" ++ Py.format_nat (String.length user_id_str))%string
            else "user-id" in
          dict_set user_info key user_id_str
      end in
    payload <- py_get_or_empty event "event" ;;
    event_user_id <- py_get payload "user_id" ;;
    user_info <-
      match event_user_id with
      | VNone => Return user_info
      | _ =>
          n <- py_len event_user_id ;;
          let key :=
            if (n <=? 4)%nat then ("user-id-event-" ++ Py.format_nat n)%string
            else "user-id-event" in
          Return (dict_set user_info key (py_unicode event_user_id))
      end ;;
    user_info <-
      match auth_user_data self, user_id with
      | _, VNone => Return user_info
      | Some ((_ :: _) as table), _ =>
          name <- name_for_user_id table user_id ;;
          match name with
          | Some name => Return (dict_set user_info "username_from_user_id" name)
          | None => Return user_info
          end
      | _, _ => Return user_info
      end ;;
    let user_info :=
      if truthy (username_map self)
      then match username_map self with
           | Some table =>
               match lookup table username with
               | Some id_for_username =>
                   dict_set user_info "user_id_from_username" id_for_username
               | None => user_info
               end
           | None => user_info
           end
      else user_info in
    Return user_info.

(** The text of a string on which a string method ([startswith],
    [encode('utf8')]) is called: anything else has no such method.  On bytes
    [encode('utf8')] is the identity. *)
Definition py_text (obj : value) : result string :=
  match obj with
  | VStr s | VUnicode s => Return s
  | _ => Raise AttributeError
  end.

(** The generator [mapper], with the pairs it yields collected. *)
Definition mapper (line : string) : result (list (string * (string * string))) :=
  match get_event_and_date_string line with
  | None => Return []
  | Some (event, _date_string) =>
      match get_course_id event with
      | Raise UnicodeEncodeError => Return []
      | Raise e => Raise e
      | Return None => Return []
      | Return (Some event_course_id) =>
          if negb (List.length (course_id self) =? 0)%nat
             && negb (Py.str_in_list event_course_id (course_id self))
          then Return []
          else
            user_info <- get_user_info_from_event event ;;
            event_type <- py_get event "event_type" ;;
            match event_type with
            | VNone => Return []
            | _ =>
                event_type_text <- py_text event_type ;;
                canonical_event_type <-
                  canonicalize_event_type COURSE_REGEX_match event_type_text
                    (exclude_implicit self) (exclude_explicit self)
                    (exclude_excluded self) (disable_slugging self)
                    (Some user_info) ;;
                match canonical_event_type with
                | None => Return []
                | Some canonical_event_type =>
                    event_source <- py_get event "event_source" ;;
                    match event_source with
                    | VNone => Return []
                    | _ =>
                        let key_list :=
                          match get_event_data event with
                          | Some event_data =>
                              get_key_names event_data "event"
                                (Some ["POST"; "GET"]) (Some user_info)
                          | None => []
                          end in
                        key_list <-
                          (if negb (exclude_context self)
                           then
                             context <- py_get event "context" ;;
                             match context with
                             | VNone => Return key_list
                             | _ =>
                                 Return
                                   (key_list
                                      ++ get_key_names context "context" None
                                           (Some user_info))
                             end
                           else Return key_list) ;;
                        let key_list :=
                          if include_attested self then key_list ++ ["attested"]
                          else key_list in
                        match key_list with
                        | [] => Return []
                        | _ =>
                            source_text <- py_text event_source ;;
                            Return
                              (map (fun key => (key, (canonical_event_type, source_text)))
                                   key_list)
                        end
                    end
                end
            end
      end
  end.

End Task.

(** ** The task: the identity directory *)

(** The separator of the fields of an [auth_user] row, the byte [\x01]. *)
Definition field_separator : ascii := ascii_of_nat 1.

(** [fields[i]]. *)
Definition py_item (fields : list string) (i : nat) : result string :=
  match nth_error fields i with
  | Some field => Return field
  | None => Raise IndexError
  end.

(** What [init_mapper] builds: the two tables, the counter
    [Auth-user lines read] and the number of calls of [log.error]. *)
Record auth_user_tables : Type := {
  loaded_auth_user_data : list (string * (string * string));
  loaded_username_map : list (string * string);
  lines_read : nat;
  emails_missing : nat
}.

Definition no_tables : auth_user_tables :=
  {| loaded_auth_user_data := [];
     loaded_username_map := [];
     lines_read := 0;
     emails_missing := 0 |}.

(** The body of the loop over the lines of the file. *)
Definition read_auth_user_line (tables : auth_user_tables) (line : string)
  : result auth_user_tables :=
  let counted := S (lines_read tables) in
  if negb (Py.contains (String field_separator EmptyString) line)
  then Return {| loaded_auth_user_data := loaded_auth_user_data tables;
                 loaded_username_map := loaded_username_map tables;
                 lines_read := counted;
                 emails_missing := emails_missing tables |}
  else
    let fields := Py.split field_separator line in
    user_id <- py_item fields 0 ;;
    username <- py_item fields 1 ;;
    email_and_errors <-
      (if (8 <=? List.length fields)%nat
       then email <- py_item fields 7 ;; Return (email, 0)
       else Return ("<missing>", 1)) ;;
    Return {| loaded_auth_user_data :=
                dict_set (loaded_auth_user_data tables) user_id
                         (username, fst email_and_errors);
              loaded_username_map :=
                dict_set (loaded_username_map tables) username user_id;
              lines_read := counted;
              emails_missing := emails_missing tables + snd email_and_errors |}.

Fixpoint read_auth_user_lines (tables : auth_user_tables) (lines : list string)
  : result auth_user_tables :=
  match lines with
  | [] => Return tables
  | line :: rest =>
      tables <- read_auth_user_line tables line ;;
      read_auth_user_lines tables rest
  end.

(** [init_mapper]: [auth_user_file] is [None] when the task has no
    [auth_user], and the lines of the dump otherwise (each with the newline
    that ends it, as the iteration over a file gives them). *)
Definition init_mapper (auth_user_file : option (list string))
  : result (option auth_user_tables) :=
  match auth_user_file with
  | None => Return None
  | Some lines =>
      tables <- read_auth_user_lines no_tables lines ;;
      Return (Some tables)
  end.

(** The task once [init_mapper] has run. *)
Definition with_tables (self : EventAnalysisTask) (tables : option auth_user_tables)
  : EventAnalysisTask :=
  {| course_id := course_id self;
     exclude_implicit := exclude_implicit self;
     exclude_explicit := exclude_explicit self;
     exclude_context := exclude_context self;
     exclude_excluded := exclude_excluded self;
     include_attested := include_attested self;
     disable_slugging := disable_slugging self;
     check_user := check_user self;
     auth_user_data :=
       match tables with
       | Some t => Some (loaded_auth_user_data t)
       | None => auth_user_data self
       end;
     username_map :=
       match tables with
       | Some t => Some (loaded_username_map t)
       | None => username_map self
       end |}.

(** ** The task: the reducer *)

(** A value of the reducer: the pair (event type, source) of the mapper. *)
Definition reducer_value : Type := (string * string)%type.

Definition value_eqb (a b : reducer_value) : bool :=
  String.eqb (fst a) (fst b) && String.eqb (snd a) (snd b).

(** [counts[value] += 1] on a [defaultdict(int)].  The order in which a
    dict of Python 2 gives its keys is not specified; the entries are kept
    here in the order in which the keys were first seen, and nothing proved
    below depends on the order among equal counts. *)
Fixpoint incr_count (counts : list (reducer_value * nat)) (value : reducer_value)
  : list (reducer_value * nat) :=
  match counts with
  | [] => [(value, 1)]
  | entry :: rest =>
      if value_eqb (fst entry) value then (fst entry, S (snd entry)) :: rest
      else entry :: incr_count rest value
  end.

Definition count_values (values : list reducer_value) : list (reducer_value * nat) :=
  fold_left incr_count values [].

(** [sorted(counts.keys(), key=lambda x: counts[x], reverse=True)], with
    each key paired with its count: a stable sort, larger counts first. *)
Fixpoint insert_by_count (entry : reducer_value * nat)
         (entries : list (reducer_value * nat)) : list (reducer_value * nat) :=
  match entries with
  | [] => [entry]
  | first :: rest =>
      if (snd first <=? snd entry)%nat then entry :: entries
      else first :: insert_by_count entry rest
  end.

Definition sorted_by_count (counts : list (reducer_value * nat))
  : list (reducer_value * nat) :=
  fold_right insert_by_count [] counts.

(** [u"{}|{}|{}|{}".format(key, source, event_type, count)]: the byte
    strings are decoded as ASCII, and [None] stands for the
    [UnicodeDecodeError] of one that is not. *)
Definition format_count_line (key : string) (value : reducer_value) (count : nat)
  : option string :=
  let event_type := fst value in
  let source := snd value in
  if is_ascii key && is_ascii source && is_ascii event_type
  then Some (key ++ "|" ++ source ++ "|" ++ event_type ++ "|" ++ Py.format_nat count)%string
  else None.

(** What the reducer does for one key: the strings passed to
    [output_file.write], the counter [Raw Bytes Written], and the number of
    values skipped with [log.exception]. *)
Record reducer_output : Type := {
  written : list string;
  raw_bytes_written : nat;
  bad_characters : nat
}.

(** The body of the second loop. *)
Definition write_count (key : string) (out : reducer_output)
           (entry : reducer_value * nat) : reducer_output :=
  match format_count_line key (fst entry) (snd entry) with
  | Some new_value =>
      {| written := written out ++ [unicode_strip new_value; String InputId.newline EmptyString];
         raw_bytes_written := raw_bytes_written out + (String.length new_value + 1);
         bad_characters := bad_characters out |}
  | None =>
      {| written := written out;
         raw_bytes_written := raw_bytes_written out;
         bad_characters := S (bad_characters out) |}
  end.

Definition multi_output_reducer (key : string) (values : list reducer_value)
  : reducer_output :=
  fold_left (write_count key) (sorted_by_count (count_values values))
            {| written := []; raw_bytes_written := 0; bad_characters := 0 |}.

Close Scope list_scope.
Open Scope list_scope.
Open Scope string_scope.

(** * Vocabulary of the statements *)

(** The letters among the hexadecimal digits. *)
Definition hex_letter (c : ascii) : bool := Py.char_in c "abcdefABCDEF".

(** [key] extends [prefix] by at least one character. *)
Definition proper_prefix (prefix key : string) : Prop :=
  exists suffix, suffix <> "" /\ key = prefix ++ suffix.

(** A value handled by the last branch of [get_key_names]. *)
Definition is_leaf (obj : value) : bool :=
  match obj with
  | VNone | VList _ | VDict _ => false
  | _ => true
  end.

(** The hint [info_name] matches the leaf text under at least one of the
    three modes. *)
Definition hint_matches (obj_str : string) (user_info : hints) (info_name : string) : bool :=
  let user_value := unicode_get user_info info_name in
  String.eqb user_value obj_str
  || String.eqb user_value (Py.dquote ++ obj_str ++ Py.dquote)
  || Py.contains user_value obj_str.

Fixpoint prefixes (s : string) : list string :=
  "" :: match s with
        | EmptyString => []
        | String c rest => map (String c) (prefixes rest)
        end.

Fixpoint substrings (s : string) : list string :=
  (prefixes s ++ match s with
                 | EmptyString => []
                 | String _ rest => substrings rest
                 end)%list.

(** The result is [None], or the exception of a path left without a second
    segment. *)
Definition excluded_or_raised (r : result (option string)) : bool :=
  match r with
  | Return None | Raise _ => true
  | Return (Some _) => false
  end.

(** The result is the signature [expected]. *)
Definition is_signature (expected : string) (r : result (option string)) : bool :=
  match r with
  | Return (Some signature) => String.eqb signature expected
  | _ => false
  end.

(** The result is a signature in which one location placeholder stands
    between [xqueue] and a last segment [score_update]. *)
Definition xqueue_collapsed (r : result (option string)) : bool :=
  match r with
  | Return (Some signature) =>
      match Py.split "/" signature with
      | [_; _; _; route; location; action] =>
          String.eqb route "xqueue" && String.eqb location "(block-loc)"
          && String.eqb action "score_update"
      | _ => false
      end
  | _ => false
  end.

(** A record that reaches the call of [get_user_info_from_event]: the line
    decodes to [event], the event has a course id, and the course filter
    lets it through. *)
Definition reaches_user_info (self : EventAnalysisTask)
           (get_event_and_date_string : string -> option (value * string))
           (get_course_id : value -> result (option string))
           (line : string) (event : value) : Prop :=
  exists date_string event_course_id,
    get_event_and_date_string line = Some (event, date_string)
    /\ get_course_id event = Return (Some event_course_id)
    /\ (course_id self = []
        \/ Py.str_in_list event_course_id (course_id self) = true).

(** A task that checks user identity and one that does not, and two
    records. *)
Definition sample_task : EventAnalysisTask :=
  {| course_id := [];
     exclude_implicit := false;
     exclude_explicit := false;
     exclude_context := false;
     exclude_excluded := false;
     include_attested := false;
     disable_slugging := false;
     check_user := true;
     auth_user_data := None;
     username_map := None |}.

Definition sample_task_unchecked : EventAnalysisTask :=
  {| course_id := [];
     exclude_implicit := false;
     exclude_explicit := false;
     exclude_context := false;
     exclude_excluded := false;
     include_attested := false;
     disable_slugging := false;
     check_user := false;
     auth_user_data := None;
     username_map := None |}.

Definition event_with_digit_username : value :=
  VDict [ ("username", VUnicode "12345");
          ("event_type", VUnicode "problem_check");
          ("event_source", VUnicode "server");
          ("context", VDict [("user_id", VInt 12345)]) ].

Definition event_without_username : value :=
  VDict [ ("event_type", VUnicode "problem_check");
          ("event_source", VUnicode "server");
          ("context", VDict [("user_id", VInt 12345)]) ].

(** The character [c] occurs in [s]. *)
Definition has_char (c : ascii) (s : string) : bool :=
  Py.any_char (fun d => Ascii.eqb d c) s.

(** The routes of a course that [exclude_excluded] can keep. *)
Definition kept_routes : list string :=
  (["submission_history"; "jump_to_id"; "courseware"; "wiki"; "discussion"; "pdfbook"]
     ++ noise_routes)%list.

(** A number from 0 to 49 as [[1234]?\d] reads it: one digit, or a digit
    after one of 1, 2, 3, 4. *)
Definition small_number_text (d : string) : bool :=
  match d with
  | String c EmptyString => Py.digit_char c
  | String c (String e EmptyString) => Py.char_in c "1234" && Py.digit_char e
  | _ => false
  end.



(** A record of a user named [alice] with the numeric id 12345, and a
    directory that has a row for that id. *)
Definition event_with_short_username : value :=
  VDict [ ("username", VUnicode " alice ");
          ("event_type", VUnicode "problem_check");
          ("event_source", VUnicode "server");
          ("context", VDict [("user_id", VInt 12345)]) ].

Definition sample_tables : auth_user_tables :=
  {| loaded_auth_user_data := [("12345", ("alice", "alice@example.com"))];
     loaded_username_map := [("alice", "12345")];
     lines_read := 1;
     emails_missing := 0 |}.

(** The email of a row: the eighth field, or the marker for a row that is
    too short. *)
Definition row_email (fields : list string) : string :=
  if (8 <=? List.length fields)%nat then nth 7 fields "" else "<missing>".

(** A row of the directory from its fields, and the tables of a file with
    two rows for the same user and a line of metadata. *)
Definition auth_user_row (fields : list string) : string :=
  Py.join (String field_separator EmptyString) fields.

Definition two_rows_loaded : auth_user_tables :=
  {| loaded_auth_user_data := [("7", ("bob", "<missing>"))];
     loaded_username_map := [("alice", "7"); ("bob", "7")];
     lines_read := 3;
     emails_missing := 1 |}.

(** The count that [counts] holds for [value], 0 when it has none. *)
Definition count_of (counts : list (reducer_value * nat)) (value : reducer_value) : nat :=
  match find (fun entry => value_eqb (fst entry) value) counts with
  | Some entry => snd entry
  | None => 0
  end.

(** The number of times [value] occurs among the values of a key. *)
Definition occurrences (values : list reducer_value) (value : reducer_value) : nat :=
  List.length (filter (value_eqb value) values).


(** The two string types of Python 2, with the digit test and the
    classifier of each. *)
Inductive text_kind : Type :=
| Str
| Unicode.

Definition isdigit_char (kind : text_kind) : ascii -> bool :=
  match kind with
  | Str => Py.digit_char
  | Unicode => unicode_digit_char
  end.

Definition get_numeric_slug_of (kind : text_kind) : string -> option hints -> string :=
  match kind with
  | Str => get_numeric_slug
  | Unicode => get_numeric_slug_unicode
  end.

(** The [unicode] strings of one character [\xb2] (superscript two) and of
    [\xe9] followed by the digit 1. *)
Definition superscript_two : string := String (ascii_of_nat 178) "".

Definition e_acute_one : string := String (ascii_of_nat 233) "1".

(** A string of a payload, if it is one, is ASCII. *)
Definition ascii_text (obj : value) : bool :=
  match obj with
  | VStr s | VUnicode s => is_ascii s
  | _ => true
  end.

(** The names and the values of the hints are ASCII. *)
Definition ascii_hints (user_info : hints) : bool :=
  forallb (fun kv => is_ascii (fst kv) && is_ascii (snd kv)) user_info.

Definition ascii_hint_map (user_info : option hints) : bool :=
  match user_info with
  | Some ui => ascii_hints ui
  | None => true
  end.

(** The [username] of an event, if it has one that is a string, is ASCII. *)
Definition ascii_username (event : value) : bool :=
  match py_get event "username" with
  | Return raw => ascii_text raw
  | Raise _ => true
  end.

(** Induction on a payload, with the hypothesis for every value inside a
    list or a dict. *)
Section ValueInduction.

Variable P : value -> Prop.
Hypothesis HNone : P VNone.
Hypothesis HBool : forall b, P (VBool b).
Hypothesis HInt : forall z, P (VInt z).
Hypothesis HFloat : forall text, P (VFloat text).
Hypothesis HStr : forall s, P (VStr s).
Hypothesis HUnicode : forall s, P (VUnicode s).
Hypothesis HList : forall l, Forall P l -> P (VList l).
Hypothesis HDict : forall d, Forall (fun kv => P (snd kv)) d -> P (VDict d).

Fixpoint value_nested_ind (obj : value) : P obj :=
  match obj with
  | VNone => HNone
  | VBool b => HBool b
  | VInt z => HInt z
  | VFloat text => HFloat text
  | VStr s => HStr s
  | VUnicode s => HUnicode s
  | VList l =>
      HList l
        ((fix entries (l : list value) : Forall P l :=
            match l with
            | [] => Forall_nil P
            | entry :: rest => Forall_cons entry (value_nested_ind entry) (entries rest)
            end) l)
  | VDict d =>
      HDict d
        ((fix items (d : list (string * value)) : Forall (fun kv => P (snd kv)) d :=
            match d with
            | [] => Forall_nil _
            | kv :: rest => Forall_cons kv (value_nested_ind (snd kv)) (items rest)
            end) d)
  end.

End ValueInduction.

(** Case analysis on the conditions of a chain of [if]s and [match]es. *)
Ltac break_conditions :=
  repeat match goal with
         | |- context [if ?b then _ else _] => destruct b eqn:?
         | |- context [match wiki_command ?v ?l with _ => _ end] =>
             destruct (wiki_command v l) eqn:?
         end.


(** * Properties *)

(** ** Evaluation on sample inputs *)

Example slug_int : get_numeric_slug "12345" None = "(int5)".
Proof. reflexivity. Qed.

Example slug_hex : get_numeric_slug "abc123def456" None = "(hex12)".
Proof. reflexivity. Qed.

Example slug_alnum : get_numeric_slug "loc123" None = "(alnum6)".
Proof. reflexivity. Qed.

Example slug_word : get_numeric_slug "courses" None = "courses".
Proof. reflexivity. Qed.

Example slug_hint :
  get_numeric_slug "12345" (Some [("user-id", "12345")]) = "(user-id)".
Proof. reflexivity. Qed.

Example key_input_id : canonicalize_key "i4x-a-b_49_1_dynamath" = "(input-id)_dynamath".
Proof. reflexivity. Qed.

Example key_no_input_id : canonicalize_key "i4x-a-b_50_1" = "(alnum7)_(int2)_(int1)".
Proof. reflexivity. Qed.

Example walk_empty_dict : get_key_names (VDict []) "event" None None = ["event(emptydict)"].
Proof. reflexivity. Qed.

Example walk_empty_list : get_key_names (VList []) "event" None None = ["event[]"].
Proof. reflexivity. Qed.

Example walk_trimmed :
  get_key_names (VDict [("POST", VDict []); ("x", VList [VInt 3; VNone])])
                "event" (Some ["POST"; "GET"]) None
  = ["event.POST(TRIMMED)"; "event.x[](int)"].
Proof. reflexivity. Qed.

Example replace_non_overlapping : Py.replace "aaaa" "aa" "X" = "XX".
Proof. reflexivity. Qed.

Example replace_empty_old : Py.replace "abc" "" "X" = "XaXbXcX".
Proof. reflexivity. Qed.

(** ** Characters and strings *)

Lemma any_char_append p s t :
  Py.any_char p (s ++ t) = Py.any_char p s || Py.any_char p t.
Proof.
  induction s as [|c s IH]; simpl; [reflexivity|].
  now rewrite IH, orb_assoc.
Qed.

Lemma all_chars_false_of_any p q s :
  (forall c, q c = true -> p c = false) ->
  Py.any_char q s = true -> Py.all_chars p s = false.
Proof.
  intros Hpq. induction s as [|c s IH]; simpl; [discriminate|].
  intros H. apply orb_true_iff in H as [H|H].
  - now rewrite (Hpq c H).
  - rewrite (IH H). apply andb_false_r.
Qed.

Lemma all_chars_any_char p s :
  s <> "" -> Py.all_chars p s = true -> Py.any_char p s = true.
Proof.
  destruct s as [|c s]; [congruence|]. simpl. intros _ H.
  apply andb_true_iff in H as [-> _]. reflexivity.
Qed.

Lemma isdigit_all_chars s :
  s <> "" -> Py.isdigit s = Py.all_chars Py.digit_char s.
Proof. destruct s; [congruence|reflexivity]. Qed.

Lemma length_zero_iff s : (String.length s =? 0)%nat = true <-> s = "".
Proof.
  destruct s; simpl; split; intros H; try reflexivity; discriminate.
Qed.

Lemma char_in_cons c d rest :
  Py.char_in c (String d rest) = true -> c = d \/ Py.char_in c rest = true.
Proof.
  simpl. intros H. apply orb_true_iff in H as [H|H]; [left|right; exact H].
  now apply Ascii.eqb_eq.
Qed.

Lemma hex_letter_not_digit c : hex_letter c = true -> Py.digit_char c = false.
Proof.
  unfold hex_letter. intros H.
  repeat (apply char_in_cons in H as [-> | H]; [reflexivity|]).
  discriminate.
Qed.

(** A formatted length starts with a decimal digit. *)
Lemma format_nat_has_digit n : Py.any_char Py.digit_char (Py.format_nat n) = true.
Proof.
  unfold Py.format_nat. destruct (Nat.to_uint n); reflexivity.
Qed.

Lemma slug_not_empty s ui :
  s <> "" ->
  get_numeric_slug s ui
  = match match ui with Some h => matching_hint s h | None => None end with
    | Some info_name => "(" ++ info_name ++ ")"
    | None =>
        if Py.isdigit s then "(int" ++ Py.format_nat (String.length s) ++ ")"
        else if Py.all_chars (fun c => Py.char_in c hex_digits) s
        then "(hex" ++ Py.format_nat (String.length s) ++ ")"
        else if Py.any_char Py.digit_char s
        then "(alnum" ++ Py.format_nat (String.length s) ++ ")"
        else s
    end.
Proof.
  intros Hs. unfold get_numeric_slug.
  destruct (String.length s =? 0)%nat eqn:E; [|reflexivity].
  apply length_zero_iff in E. contradiction.
Qed.

Lemma slug_unicode_not_empty s ui :
  s <> "" ->
  get_numeric_slug_unicode s ui
  = match match ui with Some h => matching_hint s h | None => None end with
    | Some info_name => "(" ++ info_name ++ ")"
    | None =>
        if unicode_isdigit s then "(int" ++ Py.format_nat (String.length s) ++ ")"
        else if Py.all_chars (fun c => Py.char_in c hex_digits) s
        then "(hex" ++ Py.format_nat (String.length s) ++ ")"
        else if Py.any_char unicode_digit_char s
        then "(alnum" ++ Py.format_nat (String.length s) ++ ")"
        else s
    end.
Proof.
  intros Hs. unfold get_numeric_slug_unicode.
  destruct (String.length s =? 0)%nat eqn:E; [|reflexivity].
  apply length_zero_iff in E. contradiction.
Qed.

Lemma unicode_isdigit_all_chars s :
  s <> "" -> unicode_isdigit s = Py.all_chars unicode_digit_char s.
Proof. destruct s; [congruence|reflexivity]. Qed.

Lemma hex_letter_not_unicode_digit c :
  hex_letter c = true -> unicode_digit_char c = false.
Proof.
  unfold hex_letter. intros H.
  repeat (apply char_in_cons in H as [-> | H]; [reflexivity|]).
  discriminate.
Qed.

(** The classification by the tests of [get_numeric_slug] in their order,
    for the digit test of either string type. *)
Lemma classification_of_tests (digit : ascii -> bool) (s : string) :
  s <> "" ->
  (forall c, hex_letter c = true -> digit c = false) ->
  let slug :=
    if Py.all_chars digit s then "(int" ++ Py.format_nat (String.length s) ++ ")"
    else if Py.all_chars (fun c => Py.char_in c hex_digits) s
    then "(hex" ++ Py.format_nat (String.length s) ++ ")"
    else if Py.any_char digit s
    then "(alnum" ++ Py.format_nat (String.length s) ++ ")"
    else s in
  (Py.all_chars digit s = true ->
   slug = "(int" ++ Py.format_nat (String.length s) ++ ")")
  /\ (Py.all_chars digit s = false ->
      Py.all_chars (fun c => Py.char_in c hex_digits) s = true ->
      slug = "(hex" ++ Py.format_nat (String.length s) ++ ")")
  /\ (Py.all_chars (fun c => Py.char_in c hex_digits) s = true ->
      Py.any_char hex_letter s = true ->
      slug = "(hex" ++ Py.format_nat (String.length s) ++ ")")
  /\ (Py.all_chars digit s = false ->
      Py.all_chars (fun c => Py.char_in c hex_digits) s = false ->
      Py.any_char digit s = true ->
      slug = "(alnum" ++ Py.format_nat (String.length s) ++ ")")
  /\ (Py.all_chars (fun c => Py.char_in c hex_digits) s = false ->
      Py.any_char digit s = false ->
      slug = s).
Proof.
  intros Hs Hletter slug. subst slug.
  split; [|split; [|split; [|split]]].
  - intros ->. reflexivity.
  - intros -> ->. reflexivity.
  - intros Hhex Hany.
    rewrite (all_chars_false_of_any _ _ s Hletter Hany), Hhex. reflexivity.
  - intros -> -> ->. reflexivity.
  - intros Hhex Hdigit.
    destruct (Py.all_chars digit s) eqn:E.
    + rewrite (all_chars_any_char digit s Hs E) in Hdigit. discriminate Hdigit.
    + rewrite Hhex, Hdigit. reflexivity.
Qed.

(** ** The segment classifier *)

(** C7, as amended: for a non-empty segment and no identity hints,
    [get_numeric_slug] gives [(int<len>)] when every character is a digit,
    else [(hex<len>)] when every character is a hexadecimal digit (as when
    one of them is a letter), else [(alnum<len>)] when some character is a
    digit, and the segment itself otherwise; a digit is a character that
    [isdigit] of the segment's type accepts, the decimal digits for a byte
    string and the superscript digits as well for a [unicode] string. *)
Theorem get_numeric_slug_classification (kind : text_kind) (s : string) :
  s <> "" ->
  (Py.all_chars (isdigit_char kind) s = true ->
   get_numeric_slug_of kind s None
   = "(int" ++ Py.format_nat (String.length s) ++ ")")
  /\ (Py.all_chars (isdigit_char kind) s = false ->
      Py.all_chars (fun c => Py.char_in c hex_digits) s = true ->
      get_numeric_slug_of kind s None
      = "(hex" ++ Py.format_nat (String.length s) ++ ")")
  /\ (Py.all_chars (fun c => Py.char_in c hex_digits) s = true ->
      Py.any_char hex_letter s = true ->
      get_numeric_slug_of kind s None
      = "(hex" ++ Py.format_nat (String.length s) ++ ")")
  /\ (Py.all_chars (isdigit_char kind) s = false ->
      Py.all_chars (fun c => Py.char_in c hex_digits) s = false ->
      Py.any_char (isdigit_char kind) s = true ->
      get_numeric_slug_of kind s None
      = "(alnum" ++ Py.format_nat (String.length s) ++ ")")
  /\ (Py.all_chars (fun c => Py.char_in c hex_digits) s = false ->
      Py.any_char (isdigit_char kind) s = false ->
      get_numeric_slug_of kind s None = s).
Proof.
  intros Hs. destruct kind; cbn [isdigit_char get_numeric_slug_of].
  - rewrite (slug_not_empty s None Hs), (isdigit_all_chars s Hs).
    exact (classification_of_tests Py.digit_char s Hs hex_letter_not_digit).
  - rewrite (slug_unicode_not_empty s None Hs), (unicode_isdigit_all_chars s Hs).
    exact (classification_of_tests unicode_digit_char s Hs
                                   hex_letter_not_unicode_digit).
Qed.

Lemma get_numeric_slug_classification_witness :
  get_numeric_slug "2014" None = "(int4)"
  /\ get_numeric_slug_unicode "beef12" None = "(hex6)"
  /\ get_numeric_slug "loc123" None = "(alnum6)"
  /\ get_numeric_slug_unicode e_acute_one None = "(alnum2)"
  /\ get_numeric_slug_unicode "courses" None = "courses".
Proof.
  split; [|split; [|split; [|split]]].
  - apply (get_numeric_slug_classification Str "2014"); [discriminate|reflexivity].
  - apply (get_numeric_slug_classification Unicode "beef12");
      [discriminate|reflexivity|reflexivity].
  - apply (get_numeric_slug_classification Str "loc123");
      [discriminate|reflexivity|reflexivity|reflexivity].
  - apply (get_numeric_slug_classification Unicode e_acute_one);
      [discriminate|reflexivity|reflexivity|reflexivity].
  - apply (get_numeric_slug_classification Unicode "courses");
      [discriminate|reflexivity|reflexivity].
Defined.

(** C7, as stated, fails on [unicode] text: the superscript two is not a
    decimal digit, and the classifier does not leave it unchanged but
    counts it as a number. *)
Lemma superscript_is_classified_as_int :
  Py.any_char Py.digit_char superscript_two = false
  /\ Py.all_chars (fun c => Py.char_in c hex_digits) superscript_two = false
  /\ get_numeric_slug_unicode superscript_two None = "(int1)"
  /\ get_numeric_slug_unicode superscript_two None <> superscript_two.
Proof.
  split; [reflexivity|]. split; [reflexivity|]. split; [reflexivity|].
  discriminate.
Qed.

(** On ASCII text the two classifiers agree. *)
Lemma unicode_digit_char_ascii c :
  (nat_of_ascii c <? 128)%nat = true -> unicode_digit_char c = Py.digit_char c.
Proof.
  unfold unicode_digit_char. intros H. apply Nat.ltb_lt in H.
  destruct (Py.digit_char c); [reflexivity|]. cbn [orb].
  destruct (Nat.eqb_spec (nat_of_ascii c) 178); [lia|].
  destruct (Nat.eqb_spec (nat_of_ascii c) 179); [lia|].
  destruct (Nat.eqb_spec (nat_of_ascii c) 185); [lia|reflexivity].
Qed.

Lemma get_numeric_slug_unicode_ascii s user_info :
  is_ascii s = true ->
  get_numeric_slug_unicode s user_info = get_numeric_slug s user_info.
Proof.
  intros Hascii. unfold get_numeric_slug_unicode, get_numeric_slug.
  assert (Hall : Py.all_chars unicode_digit_char s = Py.all_chars Py.digit_char s).
  { induction s as [|c s IH]; [reflexivity|]. cbn [Py.all_chars].
    unfold is_ascii in Hascii. cbn [Py.all_chars] in Hascii.
    apply andb_true_iff in Hascii as [Hc Hs].
    now rewrite (unicode_digit_char_ascii c Hc), (IH Hs). }
  assert (Hany : Py.any_char unicode_digit_char s = Py.any_char Py.digit_char s).
  { clear Hall. induction s as [|c s IH]; [reflexivity|]. cbn [Py.any_char].
    unfold is_ascii in Hascii. cbn [Py.all_chars] in Hascii.
    apply andb_true_iff in Hascii as [Hc Hs].
    now rewrite (unicode_digit_char_ascii c Hc), (IH Hs). }
  assert (Hdigit : unicode_isdigit s = Py.isdigit s).
  { destruct s; [reflexivity|exact Hall]. }
  now rewrite Hdigit, Hany.
Qed.

(** ** The structural walker *)

Lemma append_assoc s t u : (s ++ t) ++ u = s ++ (t ++ u).
Proof. induction s as [|c s IH]; simpl; [reflexivity|now rewrite IH]. Qed.

Lemma append_not_empty s t : s <> "" -> s ++ t <> "".
Proof. destruct s; [congruence|discriminate]. Qed.

Lemma proper_prefix_append prefix mid key :
  mid <> "" -> proper_prefix (prefix ++ mid) key -> proper_prefix prefix key.
Proof.
  intros Hmid (suffix & _ & ->). exists (mid ++ suffix). split.
  - now apply append_not_empty.
  - apply append_assoc.
Qed.

Lemma proper_prefix_intro prefix suffix :
  suffix <> "" -> proper_prefix prefix (prefix ++ suffix).
Proof. intros H. exists suffix. now split. Qed.

Lemma leaf_keys_extend obj prefix user_info :
  Forall (proper_prefix prefix)
         (map (fun entry_type => prefix ++ "(" ++ entry_type ++ ")")
              (leaf_entry_types obj user_info)).
Proof.
  apply Forall_map, Forall_forall. intros entry_type _.
  apply proper_prefix_intro. discriminate.
Qed.

Lemma walker_extends_prefix obj :
  forall prefix stopwords user_info,
    Forall (proper_prefix prefix) (get_key_names obj prefix stopwords user_info).
Proof.
  induction obj using value_nested_ind; intros prefix stopwords user_info;
    try apply leaf_keys_extend.
  - constructor.
  - destruct l as [|entry rest]; simpl.
    + constructor; [|constructor]. apply proper_prefix_intro. discriminate.
    + inversion H as [|? ? Hentry _]; subst.
      eapply Forall_impl; [|apply Hentry].
      intros key. apply proper_prefix_append. discriminate.
  - cbn [get_key_names]. apply Forall_app. split.
    + destruct (List.length d =? 0)%nat; constructor; [|constructor].
      apply proper_prefix_intro. discriminate.
    + apply Forall_flat_map. rewrite Forall_forall in H |- *.
      intros kv Hin.
      destruct (Py.str_in_list (Py.lower (fst kv)) (lower_stopwords stopwords)).
      * constructor; [|constructor].
        rewrite append_assoc. apply proper_prefix_intro. discriminate.
      * eapply Forall_impl; [|apply (H kv Hin)].
        intros key. apply proper_prefix_append. discriminate.
Qed.

(** C10: every key path returned by [get_key_names] strictly extends the
    prefix it was given, and [None] yields no key path. *)
Theorem get_key_names_extends_prefix :
  forall obj prefix stopwords user_info,
    Forall (proper_prefix prefix) (get_key_names obj prefix stopwords user_info)
    /\ get_key_names VNone prefix stopwords user_info = [].
Proof.
  intros obj prefix stopwords user_info. split.
  - apply walker_extends_prefix.
  - reflexivity.
Qed.

(** *** Identity hints at a leaf *)

Lemma get_key_names_leaf obj prefix stopwords user_info :
  is_leaf obj = true ->
  get_key_names obj prefix stopwords user_info
  = map (fun entry_type => prefix ++ "(" ++ entry_type ++ ")")
        (leaf_entry_types obj user_info).
Proof. destruct obj; intros H; try discriminate H; reflexivity. Qed.

Lemma leaf_entry_type_length obj_str user_info info_name :
  List.length (leaf_entry_type obj_str user_info info_name)
  = if hint_matches obj_str user_info info_name then 1 else 0.
Proof.
  unfold leaf_entry_type, hint_matches.
  destruct (String.eqb _ obj_str); [reflexivity|].
  destruct (String.eqb _ (Py.dquote ++ obj_str ++ Py.dquote)); [reflexivity|].
  destruct (Py.contains _ obj_str); reflexivity.
Qed.

Lemma entry_types_length obj_str user_info names :
  List.length (flat_map (leaf_entry_type obj_str user_info) names)
  = List.length (filter (hint_matches obj_str user_info) names).
Proof.
  induction names as [|name names IH]; [reflexivity|].
  cbn [flat_map filter]. rewrite length_app, leaf_entry_type_length, IH.
  destruct (hint_matches obj_str user_info name); reflexivity.
Qed.

Lemma leaf_entry_types_in obj user_info name entry_type :
  In name (iterkeys user_info) ->
  In entry_type (leaf_entry_type (unicode_leaf obj) user_info name) ->
  In entry_type (leaf_entry_types obj (Some user_info)).
Proof.
  intros Hname Hentry. unfold leaf_entry_types.
  assert (Hin : In entry_type
                   (flat_map (leaf_entry_type (unicode_leaf obj) user_info)
                             (iterkeys user_info))).
  { apply in_flat_map. exists name. now split. }
  destruct (flat_map _ _) as [|x rest]; [contradiction|exact Hin].
Qed.

(** C3, as amended: at a leaf, for ASCII text (the text of the leaf, the
    prefix, the names and the values of the hints), each hint is tested
    under the three modes in the order exact, quoted, containment, and the
    first mode that matches gives the only key-path variant of that hint;
    so the number of key paths is the number of hints that match under some
    mode (and one, the type name, when none does). *)
Theorem leaf_one_variant_per_hint :
  forall obj prefix stopwords user_info,
    is_leaf obj = true ->
    is_ascii (unicode_leaf obj) = true ->
    is_ascii prefix = true ->
    ascii_hints user_info = true ->
    let obj_str := unicode_leaf obj in
    let keys := get_key_names obj prefix stopwords (Some user_info) in
    (forall info_name,
        In info_name (iterkeys user_info) ->
        let user_value := unicode_get user_info info_name in
        (user_value = obj_str -> In (prefix ++ "(" ++ info_name ++ ")") keys)
        /\ (user_value <> obj_str ->
            user_value = Py.dquote ++ obj_str ++ Py.dquote ->
            In (prefix ++ "(" ++ (info_name ++ "-quoted") ++ ")") keys)
        /\ (user_value <> obj_str ->
            user_value <> Py.dquote ++ obj_str ++ Py.dquote ->
            Py.contains user_value obj_str = true ->
            In (prefix ++ "(" ++ ("contains-" ++ info_name) ++ ")") keys))
    /\ List.length keys
       = Nat.max 1 (List.length (filter (hint_matches obj_str user_info)
                                        (iterkeys user_info))).
Proof.
  intros obj prefix stopwords user_info Hleaf _ _ _ obj_str keys.
  subst keys. rewrite (get_key_names_leaf _ _ _ _ Hleaf). split.
  - intros info_name Hname user_value.
    assert (Hvariant : forall entry_type,
               In entry_type (leaf_entry_type obj_str user_info info_name) ->
               In (prefix ++ "(" ++ entry_type ++ ")")
                  (map (fun entry_type => prefix ++ "(" ++ entry_type ++ ")")
                       (leaf_entry_types obj (Some user_info)))).
    { intros entry_type Hentry.
      apply (in_map (fun entry_type => prefix ++ "(" ++ entry_type ++ ")")).
      now apply (leaf_entry_types_in obj user_info info_name). }
    unfold leaf_entry_type in Hvariant. fold user_value in Hvariant.
    split; [|split].
    + intros Heq. apply Hvariant.
      apply String.eqb_eq in Heq. rewrite Heq. now left.
    + intros Hneq Heq. apply Hvariant.
      apply String.eqb_neq in Hneq. apply String.eqb_eq in Heq.
      rewrite Hneq, Heq. now left.
    + intros Hneq Hneq' Hin. apply Hvariant.
      apply String.eqb_neq in Hneq. apply String.eqb_neq in Hneq'.
      rewrite Hneq, Hneq', Hin. now left.
  - rewrite length_map. unfold leaf_entry_types.
    rewrite <- (entry_types_length obj_str user_info (iterkeys user_info)).
    fold obj_str.
    destruct (flat_map (leaf_entry_type obj_str user_info) (iterkeys user_info))
      as [|x rest]; [reflexivity|].
    cbn [List.length Nat.eqb]. lia.
Qed.

Lemma leaf_one_variant_per_hint_witness :
  In "event(username)"
     (get_key_names (VUnicode "bob") "event" None
                    (Some [("username", "bob"); ("user-id", "7")]))
  /\ List.length (get_key_names (VUnicode "bob") "event" None
                                (Some [("username", "bob"); ("user-id", "7")]))
     = 1.
Proof.
  pose proof (leaf_one_variant_per_hint (VUnicode "bob") "event" None
                [("username", "bob"); ("user-id", "7")]
                eq_refl eq_refl eq_refl eq_refl) as [Hin Hlen].
  split.
  - apply (Hin "username"); [now left|reflexivity].
  - exact Hlen.
Defined.

(** C3, as stated, fails: a leaf equal to a hint value also contains it,
    and only the exact variant is emitted. *)
Lemma leaf_equal_to_hint_has_no_contains_variant :
  Py.contains "bob" "bob" = true
  /\ get_key_names (VUnicode "bob") "event" None (Some [("username", "bob")])
     = ["event(username)"]
  /\ ~ In "event(contains-username)"
          (get_key_names (VUnicode "bob") "event" None (Some [("username", "bob")])).
Proof.
  split; [reflexivity|]. split; [reflexivity|].
  intros [H|[]]. discriminate H.
Qed.

(** ** The key canonicalizer *)

Lemma split_not_nil sep s : Py.split sep s <> [].
Proof.
  destruct s as [|c rest]; simpl; [discriminate|].
  destruct (Ascii.eqb c sep); [discriminate|].
  destruct (Py.split sep rest); discriminate.
Qed.

(** Joining what [split] gave restores the string. *)
Lemma join_split sep s : Py.join (String sep "") (Py.split sep s) = s.
Proof.
  unfold Py.join. induction s as [|c rest IH]; [reflexivity|].
  cbn [Py.split]. destruct (Ascii.eqb c sep) eqn:E.
  - apply Ascii.eqb_eq in E. subst c.
    pose proof (split_not_nil sep rest) as Hnil.
    destruct (Py.split sep rest) as [|x xs]; [congruence|].
    change (String.concat (String sep "") ("" :: x :: xs))
      with (String sep (String.concat (String sep "") (x :: xs))).
    now rewrite IH.
  - pose proof (split_not_nil sep rest) as Hnil.
    destruct (Py.split sep rest) as [|x xs]; [congruence|].
    destruct xs as [|y ys].
    + cbn in IH |- *. now rewrite IH.
    + change (String.concat (String sep "") (String c x :: y :: ys))
        with (String c (String.concat (String sep "") (x :: y :: ys))).
      now rewrite IH.
Qed.

Lemma any_char_join p sep l :
  Py.any_char p (Py.join sep l) = false ->
  Forall (fun x => Py.any_char p x = false) l.
Proof.
  unfold Py.join. induction l as [|x [|y ys] IH]; intros H.
  - constructor.
  - constructor; [exact H|constructor].
  - change (String.concat sep (x :: y :: ys))
      with (x ++ sep ++ String.concat sep (y :: ys)) in H.
    rewrite !any_char_append in H.
    apply orb_false_iff in H as [Hx H]. apply orb_false_iff in H as [_ H].
    constructor; [exact Hx|]. now apply IH.
Qed.

(** A segment whose slug has no decimal digit is its own slug: every
    placeholder carries a length. *)
Lemma slug_without_digit s :
  Py.any_char Py.digit_char (get_numeric_slug s None) = false ->
  get_numeric_slug s None = s.
Proof.
  destruct (string_dec s "") as [->|Hs]; [reflexivity|].
  rewrite (slug_not_empty s None Hs).
  destruct (Py.isdigit s);
    [|destruct (Py.all_chars _ s); [|destruct (Py.any_char Py.digit_char s)]];
    try reflexivity;
    rewrite !any_char_append, format_nat_has_digit, orb_true_r;
    discriminate.
Qed.

Lemma slug_by_delimiter_without_digit delimiters s :
  Py.any_char Py.digit_char (slug_by_delimiter delimiters s) = false ->
  slug_by_delimiter delimiters s = s.
Proof.
  induction delimiters as [|delimiter rest IH]; cbn [slug_by_delimiter].
  - apply slug_without_digit.
  - destruct (Py.contains (String delimiter "") s); [|exact IH].
    intros H. apply any_char_join in H.
    rewrite <- (join_split delimiter s) at 2. f_equal.
    induction (Py.split delimiter s) as [|x xs IHxs]; [reflexivity|].
    cbn [map] in H |- *. inversion H; subst.
    rewrite slug_without_digit by assumption. f_equal. now apply IHxs.
Qed.

Lemma small_number_has_digit s :
  InputId.small_number s <> [] -> Py.any_char Py.digit_char s = true.
Proof.
  destruct s as [|c [|d rest]]; cbn [InputId.small_number Py.any_char].
  - congruence.
  - destruct (Py.digit_char c); [reflexivity|congruence].
  - destruct (Py.digit_char c); [reflexivity|].
    destruct (Py.digit_char d); [reflexivity|].
    rewrite andb_false_r. cbn. congruence.
Qed.

Lemma first_some_not_nil {A B : Type} (f : A -> option B) l y :
  InputId.first_some f l = Some y -> l <> [].
Proof. destruct l; [discriminate|discriminate]. Qed.

Lemma numbers_end_has_digit s n :
  InputId.numbers_end s = Some n -> Py.any_char Py.digit_char s = true.
Proof.
  unfold InputId.numbers_end. destruct s as [|c s1]; [discriminate|].
  destruct c as [[] [] [] [] [] [] [] []]; try discriminate.
  intros H. apply first_some_not_nil in H.
  cbn [Py.any_char]. rewrite (small_number_has_digit _ H). apply orb_true_r.
Qed.

(** A key that matches [INPUT_ID_REGEX] has a decimal digit. *)
Lemma input_id_has_digit s group :
  InputId.regex_match s = Some group -> Py.any_char Py.digit_char s = true.
Proof.
  unfold InputId.regex_match.
  destruct (InputId.group_length s) as [n|] eqn:E; [|discriminate].
  intros _. revert n E.
  induction s as [|c rest IH]; intros n E; [discriminate|].
  cbn [InputId.group_length] in E. cbn [Py.any_char].
  destruct (Ascii.eqb c InputId.newline); [discriminate|].
  destruct (InputId.group_length rest) as [m|].
  - rewrite (IH m eq_refl). apply orb_true_r.
  - destruct (InputId.numbers_end rest) as [m|] eqn:E'; [|discriminate].
    rewrite (numbers_end_has_digit _ _ E'). apply orb_true_r.
Qed.

(** C2, as amended: [canonicalize_key] is idempotent on every key whose
    canonical form has no decimal digit, that is, on every key of which no
    part was replaced by a length-tagged placeholder. *)
Theorem canonicalize_key_idempotent_without_digit (k : string) :
  Py.any_char Py.digit_char (canonicalize_key k) = false ->
  canonicalize_key (canonicalize_key k) = canonicalize_key k.
Proof.
  intros H. unfold canonicalize_key in H |- * at 2 3.
  set (v := match InputId.regex_match k with
            | Some input_id_string => Py.replace k input_id_string "(input-id)"
            | None => k
            end) in *.
  pose proof (slug_by_delimiter_without_digit _ _ H) as Hv.
  rewrite Hv in H |- *. unfold canonicalize_key.
  destruct (InputId.regex_match v) as [group|] eqn:E.
  - apply input_id_has_digit in E. congruence.
  - exact Hv.
Qed.

Lemma canonicalize_key_idempotent_without_digit_witness :
  canonicalize_key (canonicalize_key "i4x-a-b_49_1_dynamath")
  = canonicalize_key "i4x-a-b_49_1_dynamath".
Proof.
  apply (canonicalize_key_idempotent_without_digit "i4x-a-b_49_1_dynamath").
  reflexivity.
Defined.

(** C2, as stated, fails: the canonical form of a key with a digit is a
    placeholder that carries a digit, which does not match the input-id
    pattern and is classified again; and so is a key path of the walker. *)
Lemma canonicalize_key_not_idempotent :
  canonicalize_key "1" = "(int1)"
  /\ InputId.regex_match "(int1)" = None
  /\ canonicalize_key (canonicalize_key "1") = "(alnum6)"
  /\ get_key_names (VDict [("a1", VDict [])]) "event" None None
     = ["event.(hex2)(emptydict)"]
  /\ canonicalize_key "event.(hex2)(emptydict)" = "event.(alnum17)".
Proof. repeat split; reflexivity. Qed.

(** ** The event-type canonicalizer *)

Lemma rewrite_route_kept event_type_values disable_slugging :
  rewrite_route event_type_values false disable_slugging <> None.
Proof. unfold rewrite_route. break_conditions; discriminate. Qed.

Lemma rewrite_values_kept event_type_values disable_slugging :
  rewrite_values event_type_values false disable_slugging <> Return None.
Proof.
  unfold rewrite_values.
  destruct (nth_error event_type_values 1); [|discriminate].
  break_conditions; try discriminate.
  intros H. injection H as H. now apply rewrite_route_kept in H.
Qed.

(** The slash that starts a path gives it a second segment. *)
Lemma leading_slash_second_segment s :
  Py.startswith s "/" = true -> nth_error (Py.split "/" s) 1 <> None.
Proof.
  unfold Py.startswith. destruct s as [|c rest]; [discriminate|].
  cbn [String.prefix]. destruct (ascii_dec "/" c) as [<-|]; [|discriminate].
  intros _. cbn [Py.split]. rewrite Ascii.eqb_refl.
  pose proof (split_not_nil "/" rest) as Hnil.
  destruct (Py.split "/" rest); [congruence|discriminate].
Qed.

Lemma rewrite_values_total event_type_values disable_slugging :
  nth_error event_type_values 1 <> None ->
  exists values,
    rewrite_values event_type_values false disable_slugging = Return (Some values).
Proof.
  intros Hsecond. unfold rewrite_values.
  destruct (nth_error event_type_values 1); [|congruence].
  break_conditions; eauto.
  destruct (rewrite_route event_type_values false disable_slugging) eqn:E; eauto.
  now apply rewrite_route_kept in E.
Qed.

(** C9: with [exclude_implicit], [exclude_explicit] and [exclude_excluded]
    all off, [canonicalize_event_type] never returns [None]; and it returns
    a signature for every event type whose leading slash, if it has one, is
    still there once the course id is stubbed. *)
Theorem canonicalize_event_type_never_excluded :
  forall COURSE_REGEX_match event_type disable_slugging user_info,
    canonicalize_event_type COURSE_REGEX_match event_type
                            false false false disable_slugging user_info
    <> Return None
    /\ ((Py.startswith event_type "/" = true ->
         Py.startswith (stub_course_id COURSE_REGEX_match event_type) "/" = true) ->
        exists signature,
          canonicalize_event_type COURSE_REGEX_match event_type
                                  false false false disable_slugging user_info
          = Return (Some signature)).
Proof.
  intros m event_type disable_slugging user_info.
  unfold canonicalize_event_type.
  destruct (Py.startswith event_type "/") eqn:Hslash; cbn [negb].
  - pose proof (rewrite_values_kept
                  (Py.split "/" (stub_course_id m event_type)) disable_slugging)
      as Hkept.
    split.
    + destruct (rewrite_values _ false disable_slugging) as [[values|]|e];
        congruence.
    + intros Hstub. specialize (Hstub eq_refl).
      apply leading_slash_second_segment in Hstub.
      destruct (rewrite_values_total _ disable_slugging Hstub) as [values ->].
      eauto.
  - split; [discriminate|]. intros _. eauto.
Qed.

Lemma canonicalize_event_type_never_excluded_witness :
  exists signature,
    canonicalize_event_type (fun _ => None) "/courses/abc101/jump_to_id/loc123"
                            false false false false None
    = Return (Some signature).
Proof.
  apply (canonicalize_event_type_never_excluded
           (fun _ => None) "/courses/abc101/jump_to_id/loc123" false None).
  reflexivity.
Defined.

(** *** Every course-id pattern at once

    Whatever [COURSE_REGEX] is, the stub either leaves the event type as it
    is or replaces the occurrences of one of its substrings. *)

Lemma prefix_in_prefixes g s : String.prefix g s = true -> In g (prefixes s).
Proof.
  revert g. induction s as [|c rest IH]; intros [|d g] H; cbn in *;
    try (now left); try discriminate.
  right. destruct (ascii_dec d c) as [->|]; [|discriminate].
  apply in_map. now apply IH.
Qed.

Lemma contains_in_substrings g s : Py.contains g s = true -> In g (substrings s).
Proof.
  induction s as [|c rest IH]; cbn [Py.contains substrings]; intros H;
    apply orb_true_iff in H as [H|H]; apply in_or_app.
  - left. now apply prefix_in_prefixes.
  - discriminate.
  - left. now apply prefix_in_prefixes.
  - right. now apply IH.
Qed.

Lemma replace_absent s old new :
  Py.contains old s = false -> Py.replace s old new = s.
Proof.
  destruct old as [|d old'].
  - destruct s; discriminate.
  - unfold Py.replace. induction s as [|c rest IH]; [reflexivity|].
    cbn [Py.contains Py.replace_from]. intros H.
    apply orb_false_iff in H as [-> H]. now rewrite IH.
Qed.

Lemma canonicalize_event_type_ext m1 m2 event_type ei ee ex ds user_info :
  m1 event_type = m2 event_type ->
  canonicalize_event_type m1 event_type ei ee ex ds user_info
  = canonicalize_event_type m2 event_type ei ee ex ds user_info.
Proof.
  intros H. unfold canonicalize_event_type, stub_course_id. now rewrite H.
Qed.

(** A test of the result that holds without a match and for the stub of
    every substring holds for every pattern. *)
Lemma for_every_course_regex (Q : result (option string) -> bool)
      event_type ei ee ex ds user_info :
  Q (canonicalize_event_type (fun _ => None) event_type ei ee ex ds user_info) = true ->
  forallb (fun g => Q (canonicalize_event_type (fun _ => Some g) event_type
                                               ei ee ex ds user_info))
          (substrings event_type) = true ->
  forall m, Q (canonicalize_event_type m event_type ei ee ex ds user_info) = true.
Proof.
  intros Hnone Hall m. rewrite forallb_forall in Hall.
  destruct (m event_type) as [g|] eqn:E.
  - rewrite (canonicalize_event_type_ext m (fun _ => Some g)) by exact E.
    destruct (Py.contains g event_type) eqn:Hg.
    + apply Hall. now apply contains_in_substrings.
    + unfold canonicalize_event_type, stub_course_id in Hnone |- *.
      now rewrite (replace_absent _ _ _ Hg).
  - now rewrite (canonicalize_event_type_ext m (fun _ => None)) by exact E.
Qed.

(** *** Known noise *)

Lemma canonicalize_event_type_raises m event_type ei ee ex ds user_info e :
  canonicalize_event_type m event_type ei ee ex ds user_info = Raise e ->
  nth_error (Py.split "/" (stub_course_id m event_type)) 1 = None.
Proof.
  unfold canonicalize_event_type, rewrite_values.
  destruct (nth_error _ 1); [|reflexivity].
  break_conditions; try discriminate.
  all: destruct (rewrite_route _ ex ds); discriminate.
Qed.

(** C6: under [exclude_excluded], a path [/courses/(course_id)/<route>...]
    whose route is one of [info], [progress], [course_wiki], [about],
    [teams] is excluded exactly when segments follow the route; and
    ["/courses/c1/info/extra"] is excluded, for every course-id pattern that
    leaves its leading slash in place. *)
Theorem noise_route_excluded_iff_trailing_segments :
  forall COURSE_REGEX_match event_type exclude_implicit disable_slugging user_info,
    (Py.startswith event_type "/" = true ->
     let event_type_values :=
       Py.split "/" (stub_course_id COURSE_REGEX_match event_type) in
     3 < List.length event_type_values ->
     item event_type_values 1 = "courses" ->
     item event_type_values 2 = "(course_id)" ->
     In (item event_type_values 3) noise_routes ->
     (canonicalize_event_type COURSE_REGEX_match event_type
                              exclude_implicit false true disable_slugging user_info
      = Return None
      <-> 4 < List.length event_type_values))
    /\ (Py.startswith (stub_course_id COURSE_REGEX_match "/courses/c1/info/extra") "/"
        = true ->
        canonicalize_event_type COURSE_REGEX_match "/courses/c1/info/extra"
                                false false true false user_info
        = Return None).
Proof.
  intros m event_type exclude_implicit disable_slugging user_info. split.
  - intros Hslash values Hlen Hcourses Hstub Hroute.
    unfold canonicalize_event_type. rewrite Hslash. cbn [negb]. fold values.
    unfold rewrite_values.
    rewrite (nth_error_nth' values "" (n := 1)) by lia.
    fold (item values 1). rewrite Hcourses, String.eqb_refl.
    rewrite Hstub, String.eqb_refl, andb_true_r.
    destruct (Nat.ltb_spec 3 (List.length values)) as [_|]; [|lia].
    assert (Hrewrite : rewrite_route values true disable_slugging
                       = if (4 <? List.length values)%nat then None else Some values).
    { unfold rewrite_route.
      destruct Hroute as [<-|[<-|[<-|[<-|[<-|[]]]]]]; reflexivity. }
    rewrite Hrewrite.
    destruct (Nat.ltb_spec 4 (List.length values)) as [Hlong|Hshort];
      split; intros Hgoal;
      try reflexivity; try discriminate; try lia; assumption.
  - intros Hslash.
    pose proof (for_every_course_regex excluded_or_raised
                  "/courses/c1/info/extra" false false true false user_info) as H.
    specialize (H ltac:(vm_compute; reflexivity) ltac:(vm_compute; reflexivity) m).
    destruct (canonicalize_event_type m "/courses/c1/info/extra"
                                      false false true false user_info)
      as [[signature|]|e] eqn:E; try discriminate H; [reflexivity|].
    apply canonicalize_event_type_raises in E.
    now apply leading_slash_second_segment in Hslash.
Qed.

Lemma noise_route_excluded_iff_trailing_segments_witness :
  (canonicalize_event_type (fun _ => Some "edX/DemoX/2014")
                           "/courses/edX/DemoX/2014/progress/7"
                           false false true false None
   = Return None
   <-> 4 < List.length (Py.split "/" "/courses/(course_id)/progress/7"))
  /\ canonicalize_event_type (fun _ => Some "c1") "/courses/c1/info/extra"
                             false false true false None
     = Return None.
Proof.
  pose proof (noise_route_excluded_iff_trailing_segments
                (fun _ => Some "edX/DemoX/2014")
                "/courses/edX/DemoX/2014/progress/7" false false None)
    as [Hgeneral _].
  pose proof (noise_route_excluded_iff_trailing_segments
                (fun _ => Some "c1") "" false false None)
    as [_ Hextra].
  split.
  - apply Hgeneral; [reflexivity|cbn; lia|reflexivity|reflexivity|].
    right. now left.
  - apply Hextra. reflexivity.
Defined.

Example noise_route_alone_is_kept :
  canonicalize_event_type (fun _ => Some "edX/DemoX/2014")
                          "/courses/edX/DemoX/2014/progress"
                          false false true false None
  = Return (Some "/courses/(course_id)/progress").
Proof. reflexivity. Qed.

(** *** Slugging switched off *)

Lemma rewrite_route_exclusion_without_slugging event_type_values exclude_excluded :
  rewrite_route event_type_values exclude_excluded true = None
  <-> rewrite_route event_type_values exclude_excluded false = None.
Proof.
  unfold rewrite_route. cbn [negb]. rewrite ?andb_true_r, ?andb_false_r.
  break_conditions; split; intros H; try reflexivity; discriminate H.
Qed.

(** [disable_slugging] does not change which event types are excluded. *)
Theorem exclusion_independent_of_slugging :
  forall COURSE_REGEX_match event_type exclude_implicit exclude_explicit
         exclude_excluded user_info,
    canonicalize_event_type COURSE_REGEX_match event_type exclude_implicit
                            exclude_explicit exclude_excluded true user_info
    = Return None
    <-> canonicalize_event_type COURSE_REGEX_match event_type exclude_implicit
                                exclude_explicit exclude_excluded false user_info
        = Return None.
Proof.
  intros m event_type ei ee ex user_info. unfold canonicalize_event_type.
  destruct (negb (Py.startswith event_type "/")); [reflexivity|].
  destruct ee; [reflexivity|].
  unfold rewrite_values.
  destruct (nth_error _ 1); [|reflexivity].
  pose proof (rewrite_route_exclusion_without_slugging
                (Py.split "/" (stub_course_id m event_type)) ex) as Hroute.
  break_conditions; try reflexivity.
  destruct (rewrite_route _ ex true), (rewrite_route _ ex false);
    split; intros H; try reflexivity; try discriminate H.
  all: destruct Hroute as [Hon Hoff];
    first [discriminate (Hon eq_refl) | discriminate (Hoff eq_refl)].
Qed.

(** C4, where the code departs from it: with [disable_slugging] on, the
    [discussion] branch still writes its placeholder.  A discussion id that
    the classifier alone would tag [(alnum9)] comes out as
    [(discussion-id)]. *)
Theorem discussion_slugged_despite_disable_slugging :
  forall COURSE_REGEX_match,
    COURSE_REGEX_match "/courses/edX/DemoX/2014/discussion/i4x-edx-1/threads/create"
    = Some "edX/DemoX/2014" ->
    canonicalize_event_type
      COURSE_REGEX_match "/courses/edX/DemoX/2014/discussion/i4x-edx-1/threads/create"
      false false false true None
    = Return (Some "/courses/(course_id)/discussion/(discussion-id)/threads/create")
    /\ join_slugs (Py.split "/" "/courses/(course_id)/discussion/i4x-edx-1/threads/create")
                  None
       = "/courses/(course_id)/discussion/(alnum9)/threads/create".
Proof.
  intros m Hmatch. split; [|reflexivity].
  rewrite (canonicalize_event_type_ext m (fun _ => Some "edX/DemoX/2014"))
    by exact Hmatch.
  reflexivity.
Qed.

Lemma discussion_slugged_despite_disable_slugging_witness :
  canonicalize_event_type
    (fun _ => Some "edX/DemoX/2014")
    "/courses/edX/DemoX/2014/discussion/i4x-edx-1/threads/create"
    false false false true None
  = Return (Some "/courses/(course_id)/discussion/(discussion-id)/threads/create").
Proof.
  apply (discussion_slugged_despite_disable_slugging
           (fun _ => Some "edX/DemoX/2014") eq_refl).
Defined.

(** The sibling branches do honour the switch, for instance [jump_to_id]. *)
Example jump_to_id_not_slugged_when_disabled :
  canonicalize_event_type (fun _ => Some "edX/DemoX/2014")
                          "/courses/edX/DemoX/2014/jump_to_id/loc-x"
                          false false false true None
  = Return (Some "/courses/(course_id)/jump_to_id/loc-x").
Proof. reflexivity. Qed.

(** *** Two sample signatures *)

(** C1, as amended: for ["/courses/abc101/jump_to_id/loc123"] with every
    switch off, the signature is
    ["/courses/(course_id)/jump_to_id/(block-id)"] when the course-id
    pattern captures [abc101], and ["/courses/(hex6)/jump_to_id/(alnum6)"]
    when the pattern does not match; both have the five segments of the
    input, the first of them empty.  When the pattern captures the three
    segments [abc101/jump_to_id/loc123], the signature is
    ["/courses/(course_id)"]. *)
Theorem jump_to_id_signature :
  forall COURSE_REGEX_match,
    (COURSE_REGEX_match "/courses/abc101/jump_to_id/loc123" = Some "abc101" ->
     canonicalize_event_type COURSE_REGEX_match "/courses/abc101/jump_to_id/loc123"
                             false false false false None
     = Return (Some "/courses/(course_id)/jump_to_id/(block-id)"))
    /\ (COURSE_REGEX_match "/courses/abc101/jump_to_id/loc123" = None ->
        canonicalize_event_type COURSE_REGEX_match "/courses/abc101/jump_to_id/loc123"
                                false false false false None
        = Return (Some "/courses/(hex6)/jump_to_id/(alnum6)"))
    /\ (COURSE_REGEX_match "/courses/abc101/jump_to_id/loc123"
        = Some "abc101/jump_to_id/loc123" ->
        canonicalize_event_type COURSE_REGEX_match "/courses/abc101/jump_to_id/loc123"
                                false false false false None
        = Return (Some "/courses/(course_id)"))
    /\ List.length (Py.split "/" "/courses/abc101/jump_to_id/loc123") = 5
    /\ List.length (Py.split "/" "/courses/(course_id)/jump_to_id/(block-id)") = 5
    /\ List.length (Py.split "/" "/courses/(hex6)/jump_to_id/(alnum6)") = 5.
Proof.
  intros m. split; [|split; [|split; [|repeat split; vm_compute; reflexivity]]].
  - intros Hmatch.
    now rewrite (canonicalize_event_type_ext m (fun _ => Some "abc101")).
  - intros Hmatch.
    now rewrite (canonicalize_event_type_ext m (fun _ => None)).
  - intros Hmatch.
    now rewrite (canonicalize_event_type_ext
                   m (fun _ => Some "abc101/jump_to_id/loc123")).
Qed.

Lemma jump_to_id_signature_witness :
  canonicalize_event_type (fun _ => Some "abc101") "/courses/abc101/jump_to_id/loc123"
                          false false false false None
  = Return (Some "/courses/(course_id)/jump_to_id/(block-id)")
  /\ canonicalize_event_type (fun _ => None) "/courses/abc101/jump_to_id/loc123"
                             false false false false None
     = Return (Some "/courses/(hex6)/jump_to_id/(alnum6)").
Proof.
  split.
  - apply (jump_to_id_signature (fun _ => Some "abc101")). reflexivity.
  - apply (jump_to_id_signature (fun _ => None)). reflexivity.
Defined.

(** C1, as stated, fails: no course-id pattern gives the signature
    ["/(alnum6)/courses/(alnum6)/jump_to_id/(block-id)"]. *)
Lemma jump_to_id_signature_never_as_stated :
  ~ exists COURSE_REGEX_match,
      canonicalize_event_type COURSE_REGEX_match "/courses/abc101/jump_to_id/loc123"
                              false false false false None
      = Return (Some "/(alnum6)/courses/(alnum6)/jump_to_id/(block-id)").
Proof.
  intros [m H].
  pose proof (for_every_course_regex
                (fun r => negb (is_signature
                                  "/(alnum6)/courses/(alnum6)/jump_to_id/(block-id)" r))
                "/courses/abc101/jump_to_id/loc123" false false false false None)
    as Hall.
  specialize (Hall ltac:(vm_compute; reflexivity) ltac:(vm_compute; reflexivity) m).
  rewrite H in Hall. discriminate Hall.
Qed.

(** C5, as amended: for
    ["/courses/demo/xqueue/1/abc123def456/score_update"] with every switch
    off, when the course-id pattern captures [demo] the signature is
    ["/courses/(course_id)/xqueue/(int1)/(block-loc)/score_update"]: the
    segment after the queue number alone becomes the location placeholder,
    the queue number is classified [(int1)], [score_update] is kept, and
    the number of segments is that of the input.  When the pattern does not
    match, no placeholder of the route is written; when it captures the
    three segments [demo/xqueue/1], the route is gone with them. *)
Theorem xqueue_signature :
  forall COURSE_REGEX_match,
    (COURSE_REGEX_match "/courses/demo/xqueue/1/abc123def456/score_update"
     = Some "demo" ->
     canonicalize_event_type
       COURSE_REGEX_match "/courses/demo/xqueue/1/abc123def456/score_update"
       false false false false None
     = Return (Some "/courses/(course_id)/xqueue/(int1)/(block-loc)/score_update"))
    /\ (COURSE_REGEX_match "/courses/demo/xqueue/1/abc123def456/score_update" = None ->
        canonicalize_event_type
          COURSE_REGEX_match "/courses/demo/xqueue/1/abc123def456/score_update"
          false false false false None
        = Return (Some "/courses/demo/xqueue/(int1)/(hex12)/score_update"))
    /\ (COURSE_REGEX_match "/courses/demo/xqueue/1/abc123def456/score_update"
        = Some "demo/xqueue/1" ->
        canonicalize_event_type
          COURSE_REGEX_match "/courses/demo/xqueue/1/abc123def456/score_update"
          false false false false None
        = Return (Some "/courses/(course_id)/(hex12)/score_update"))
    /\ List.length (Py.split "/" "/courses/demo/xqueue/1/abc123def456/score_update") = 7
    /\ List.length
         (Py.split "/" "/courses/(course_id)/xqueue/(int1)/(block-loc)/score_update")
       = 7.
Proof.
  intros m. split; [|split; [|split; [|split; vm_compute; reflexivity]]].
  - intros Hmatch.
    now rewrite (canonicalize_event_type_ext m (fun _ => Some "demo")).
  - intros Hmatch.
    now rewrite (canonicalize_event_type_ext m (fun _ => None)).
  - intros Hmatch.
    now rewrite (canonicalize_event_type_ext m (fun _ => Some "demo/xqueue/1")).
Qed.

Lemma xqueue_signature_witness :
  canonicalize_event_type
    (fun _ => Some "demo") "/courses/demo/xqueue/1/abc123def456/score_update"
    false false false false None
  = Return (Some "/courses/(course_id)/xqueue/(int1)/(block-loc)/score_update").
Proof.
  apply (xqueue_signature (fun _ => Some "demo")). reflexivity.
Defined.

(** C5, as stated, fails: no course-id pattern gives a signature in which
    one location placeholder stands for the two segments between [xqueue]
    and [score_update]; with the course id [demo] stubbed, the signature
    keeps a segment for each of them. *)
Lemma xqueue_segments_not_collapsed :
  (~ exists COURSE_REGEX_match,
       xqueue_collapsed
         (canonicalize_event_type
            COURSE_REGEX_match "/courses/demo/xqueue/1/abc123def456/score_update"
            false false false false None) = true)
  /\ canonicalize_event_type
       (fun _ => Some "demo") "/courses/demo/xqueue/1/abc123def456/score_update"
       false false false false None
     = Return (Some "/courses/(course_id)/xqueue/(int1)/(block-loc)/score_update").
Proof.
  split; [|reflexivity].
  intros [m H].
  pose proof (for_every_course_regex
                (fun r => negb (xqueue_collapsed r))
                "/courses/demo/xqueue/1/abc123def456/score_update"
                false false false false None) as Hall.
  specialize (Hall ltac:(vm_compute; reflexivity) ltac:(vm_compute; reflexivity) m).
  cbv beta in Hall. rewrite H in Hall. discriminate Hall.
Qed.

(** ** Per-record processing *)

(** The white space of a byte string is white space of a [unicode] string,
    and a decimal digit is white space of neither. *)
Lemma space_char_unicode c :
  Py.space_char c = true -> unicode_space_char c = true.
Proof. unfold unicode_space_char. now intros ->. Qed.

Lemma digit_is_not_unicode_space c :
  Py.digit_char c = true -> unicode_space_char c = false.
Proof.
  unfold Py.digit_char. intros H.
  repeat (apply char_in_cons in H as [-> | H]; [reflexivity|]).
  discriminate.
Qed.

Lemma unicode_lstrip_as_bytes s :
  match Py.lstrip s with
  | String c _ => unicode_space_char c = false
  | EmptyString => True
  end ->
  unicode_lstrip s = Py.lstrip s.
Proof.
  induction s as [|c s IH]; [reflexivity|].
  cbn [Py.lstrip unicode_lstrip].
  destruct (Py.space_char c) eqn:E.
  - rewrite (space_char_unicode c E). exact IH.
  - now intros ->.
Qed.

Lemma unicode_rstrip_as_bytes s :
  Py.all_chars (fun c => negb (unicode_space_char c)) (Py.rstrip s) = true ->
  unicode_rstrip s = Py.rstrip s.
Proof.
  induction s as [|c s IH]; [reflexivity|].
  cbn [Py.rstrip unicode_rstrip].
  destruct (Py.rstrip s) as [|d r] eqn:E.
  - rewrite (IH eq_refl).
    destruct (Py.space_char c) eqn:Ec.
    + now rewrite (space_char_unicode c Ec).
    + cbn [Py.all_chars]. rewrite andb_true_r.
      destruct (unicode_space_char c); [discriminate|reflexivity].
  - cbn [Py.all_chars]. intros H. apply andb_true_iff in H as [_ H].
    now rewrite (IH H).
Qed.

Lemma rstrip_head c s :
  Py.rstrip (String c s) = "" \/ exists r, Py.rstrip (String c s) = String c r.
Proof.
  cbn [Py.rstrip]. destruct (Py.rstrip s).
  - destruct (Py.space_char c); eauto.
  - eauto.
Qed.

(** A username that the byte strip leaves in digits is stripped alike as a
    [unicode] string. *)
Lemma unicode_strip_of_digits s :
  Py.isdigit (Py.strip s) = true -> unicode_strip s = Py.strip s.
Proof.
  unfold Py.strip, unicode_strip. intros Hdigit.
  assert (Hall : Py.all_chars Py.digit_char (Py.rstrip (Py.lstrip s)) = true).
  { destruct (Py.rstrip (Py.lstrip s)); [discriminate Hdigit|exact Hdigit]. }
  assert (Hrest : Py.all_chars (fun c => negb (unicode_space_char c))
                               (Py.rstrip (Py.lstrip s)) = true).
  { revert Hall. generalize (Py.rstrip (Py.lstrip s)) as t.
    induction t as [|c r IH]; [reflexivity|]. cbn [Py.all_chars].
    intros H. apply andb_true_iff in H as [Hc H].
    now rewrite (digit_is_not_unicode_space c Hc), (IH H). }
  rewrite unicode_lstrip_as_bytes.
  - now apply unicode_rstrip_as_bytes.
  - destruct (Py.lstrip s) as [|c rest] eqn:E; [exact I|].
    destruct (rstrip_head c rest) as [Hempty | [r Hr]].
    + rewrite Hempty in Hdigit. discriminate Hdigit.
    + rewrite Hr in Hall. cbn [Py.all_chars] in Hall.
      apply andb_true_iff in Hall as [Hc _].
      now apply digit_is_not_unicode_space.
Qed.

Section MapperFailures.

Variable self : EventAnalysisTask.
Variable COURSE_REGEX_match : string -> option string.
Variable get_event_and_date_string : string -> option (value * string).
Variable get_course_id : value -> result (option string).
Variable get_event_data : value -> option value.
Variable unicode_container : value -> string.

Hypothesis Hcheck_user : check_user self = true.

Lemma user_info_without_username event :
  py_get event "username" = Return VNone ->
  get_user_info_from_event self unicode_container event = Raise AttributeError.
Proof.
  intros Hget. unfold get_user_info_from_event.
  rewrite Hcheck_user, Hget. reflexivity.
Qed.

Lemma user_info_with_digit_username event raw_username username :
  py_get event "username" = Return raw_username ->
  py_strip raw_username = Return username ->
  Py.isdigit username = true ->
  get_user_info_from_event self unicode_container event = Raise TypeError.
Proof.
  intros Hget Hstrip Hdigit. unfold get_user_info_from_event.
  rewrite Hcheck_user, Hget. cbn [negb bind]. rewrite Hstrip. cbn [bind].
  unfold username_key. rewrite Hdigit. reflexivity.
Qed.

Lemma mapper_propagates line event e :
  reaches_user_info self get_event_and_date_string get_course_id line event ->
  get_user_info_from_event self unicode_container event = Raise e ->
  mapper self COURSE_REGEX_match get_event_and_date_string get_course_id
         get_event_data unicode_container line
  = Raise e.
Proof.
  intros (date_string & event_course_id & Hline & Hcourse & Hfilter) Hraise.
  unfold mapper. rewrite Hline, Hcourse.
  assert (Hpass : negb (List.length (course_id self) =? 0)%nat
                  && negb (Py.str_in_list event_course_id (course_id self))
                  = false).
  { destruct Hfilter as [-> | ->]; [reflexivity|]. apply andb_false_r. }
  rewrite Hpass, Hraise. reflexivity.
Qed.

End MapperFailures.

(** C8, where the code departs from it: with [check_user] on, a record
    that reaches [get_user_info_from_event] makes the mapper raise
    [AttributeError] when its [username] is absent (or [None]), and
    [TypeError] when its [username], stripped, has only digits; neither is
    caught. *)
Theorem mapper_raises_on_username :
  forall self COURSE_REGEX_match get_event_and_date_string get_course_id
         get_event_data unicode_container line event,
    check_user self = true ->
    reaches_user_info self get_event_and_date_string get_course_id line event ->
    (py_get event "username" = Return VNone ->
     mapper self COURSE_REGEX_match get_event_and_date_string get_course_id
            get_event_data unicode_container line
     = Raise AttributeError)
    /\ (forall username,
           py_get event "username" = Return (VUnicode username) ->
           Py.isdigit (Py.strip username) = true ->
           mapper self COURSE_REGEX_match get_event_and_date_string get_course_id
                  get_event_data unicode_container line
           = Raise TypeError).
Proof.
  intros self m decode course_of data_of uc line event Hcheck Hreach. split.
  - intros Hget. apply (mapper_propagates self m decode course_of data_of uc line event).
    + exact Hreach.
    + now apply user_info_without_username.
  - intros username Hget Hdigit.
    apply (mapper_propagates self m decode course_of data_of uc line event).
    + exact Hreach.
    + apply (user_info_with_digit_username self uc Hcheck event
               (VUnicode username) (Py.strip username)); auto.
      cbn [py_strip]. now rewrite (unicode_strip_of_digits username Hdigit).
Qed.

Lemma mapper_raises_on_username_witness :
  mapper sample_task (fun _ => None)
         (fun _ => Some (event_with_digit_username, "2014-05-01"))
         (fun _ => Return (Some "edX/DemoX/2014")) (fun _ => None) (fun _ => "")
         "line"
  = Raise TypeError
  /\ mapper sample_task (fun _ => None)
            (fun _ => Some (event_without_username, "2014-05-01"))
            (fun _ => Return (Some "edX/DemoX/2014")) (fun _ => None) (fun _ => "")
            "line"
     = Raise AttributeError.
Proof.
  split.
  - apply (mapper_raises_on_username
             sample_task (fun _ => None)
             (fun _ => Some (event_with_digit_username, "2014-05-01"))
             (fun _ => Return (Some "edX/DemoX/2014")) (fun _ => None) (fun _ => "")
             "line" event_with_digit_username eq_refl
             (ex_intro _ "2014-05-01"
                (ex_intro _ "edX/DemoX/2014"
                   (conj eq_refl (conj eq_refl (or_introl eq_refl)))))
             ) with (username := "12345"); reflexivity.
  - apply (mapper_raises_on_username
             sample_task (fun _ => None)
             (fun _ => Some (event_without_username, "2014-05-01"))
             (fun _ => Return (Some "edX/DemoX/2014")) (fun _ => None) (fun _ => "")
             "line" event_without_username eq_refl
             (ex_intro _ "2014-05-01"
                (ex_intro _ "edX/DemoX/2014"
                   (conj eq_refl (conj eq_refl (or_introl eq_refl)))))).
    reflexivity.
Defined.

(** Without [check_user] the same records are processed. *)
Example mapper_without_check_user :
  mapper sample_task_unchecked (fun _ => None)
         (fun _ => Some (event_with_digit_username, "2014-05-01"))
         (fun _ => Return (Some "edX/DemoX/2014")) (fun _ => None) (fun _ => "")
         "line"
  = Return [("context.user_id(int)", ("problem_check", "server"))].
Proof. reflexivity. Qed.

(** * Further properties *)

(** ** Splitting and joining *)

Lemma contains_char c s : Py.contains (String c "") s = has_char c s.
Proof.
  induction s as [|d rest IH]; [reflexivity|].
  cbn [Py.contains has_char Py.any_char String.prefix].
  fold (has_char c rest). rewrite IH.
  destruct (ascii_dec c d) as [->|Hneq].
  - rewrite Ascii.eqb_refl. now destruct rest.
  - apply not_eq_sym in Hneq. apply Ascii.eqb_neq in Hneq. now rewrite Hneq.
Qed.

Lemma split_without_separator sep s : has_char sep s = false -> Py.split sep s = [s].
Proof.
  induction s as [|c rest IH]; [reflexivity|].
  cbn [has_char Py.any_char Py.split]. intros H.
  apply orb_false_iff in H as [-> H]. now rewrite (IH H).
Qed.

Lemma split_with_separator sep s :
  has_char sep s = true -> 2 <= List.length (Py.split sep s).
Proof.
  induction s as [|c rest IH]; [discriminate|].
  cbn [has_char Py.any_char Py.split]. intros H.
  pose proof (split_not_nil sep rest) as Hnil.
  destruct (Ascii.eqb c sep).
  - destruct (Py.split sep rest); [congruence|cbn; lia].
  - specialize (IH H). destruct (Py.split sep rest); [congruence|exact IH].
Qed.

Lemma split_parts_have_no_separator sep s :
  Forall (fun part => has_char sep part = false) (Py.split sep s).
Proof.
  induction s as [|c rest IH]; [now repeat constructor|].
  cbn [Py.split]. destruct (Ascii.eqb c sep) eqn:E.
  - now constructor.
  - pose proof (split_not_nil sep rest) as Hnil.
    destruct (Py.split sep rest) as [|x xs]; [congruence|].
    inversion IH; subst. constructor; [|assumption].
    cbn [has_char Py.any_char]. now rewrite E.
Qed.

Lemma split_append_separator sep x rest :
  has_char sep x = false ->
  Py.split sep (x ++ String sep rest) = x :: Py.split sep rest.
Proof.
  induction x as [|c x IH]; cbn [append Py.split has_char Py.any_char].
  - now rewrite Ascii.eqb_refl.
  - intros H. apply orb_false_iff in H as [-> H]. now rewrite (IH H).
Qed.

(** Splitting what [join] gave restores the parts, when none of them has the
    separator. *)
Lemma split_join sep parts :
  parts <> [] ->
  Forall (fun part => has_char sep part = false) parts ->
  Py.split sep (Py.join (String sep "") parts) = parts.
Proof.
  unfold Py.join. induction parts as [|x [|y ys] IH]; intros Hnil Hclean.
  - congruence.
  - inversion Hclean; subst. now apply split_without_separator.
  - inversion Hclean; subst.
    change (String.concat (String sep "") (x :: y :: ys))
      with (x ++ String sep (String.concat (String sep "") (y :: ys))).
    rewrite split_append_separator by assumption.
    f_equal. apply IH; [discriminate|assumption].
Qed.

Lemma string_of_uint_digits d :
  Py.all_chars Py.digit_char (NilEmpty.string_of_uint d) = true.
Proof. induction d; cbn; auto. Qed.

Lemma format_nat_digits n : Py.all_chars Py.digit_char (Py.format_nat n) = true.
Proof.
  unfold Py.format_nat, NilZero.string_of_uint.
  destruct (Nat.to_uint n); [reflexivity|exact (string_of_uint_digits _)..].
Qed.

Lemma any_char_false_of_all p q s :
  (forall c, p c = true -> q c = false) ->
  Py.all_chars p s = true -> Py.any_char q s = false.
Proof.
  intros Hpq. induction s as [|c s IH]; [reflexivity|].
  cbn. intros H. apply andb_true_iff in H as [Hc H].
  now rewrite (Hpq c Hc), (IH H).
Qed.

Lemma digit_is_not_slash c : Py.digit_char c = true -> Ascii.eqb c "/" = false.
Proof.
  unfold Py.digit_char. intros H.
  repeat (apply char_in_cons in H as [-> | H]; [reflexivity|]).
  discriminate.
Qed.

(** Without hints a slug has no slash unless the segment has one. *)
Lemma slug_has_no_slash s :
  has_char "/" s = false -> has_char "/" (get_numeric_slug s None) = false.
Proof.
  intros Hs. destruct (string_dec s "") as [->|Hne]; [reflexivity|].
  rewrite (slug_not_empty s None Hne).
  assert (Hfmt : has_char "/" (Py.format_nat (String.length s)) = false).
  { apply (any_char_false_of_all Py.digit_char); [apply digit_is_not_slash|].
    apply format_nat_digits. }
  unfold has_char in *.
  destruct (Py.isdigit s);
    [|destruct (Py.all_chars _ s); [|destruct (Py.any_char Py.digit_char s)]];
    try exact Hs; rewrite !any_char_append, Hfmt; reflexivity.
Qed.

(** Without hints the segments of a signature are the slugs of the
    segments it was joined from. *)
Lemma split_join_slugs values :
  values <> [] ->
  Forall (fun part => has_char "/" part = false) values ->
  Py.split "/" (join_slugs values None)
  = map (fun value => get_numeric_slug value None) values.
Proof.
  intros Hnil Hclean. unfold join_slugs. apply split_join.
  - destruct values; [congruence|discriminate].
  - apply Forall_map. eapply Forall_impl; [|exact Hclean].
    intros part. apply slug_has_no_slash.
Qed.

(** ** Lists of segments *)

Lemma set_item_length {A : Type} (l : list A) i x :
  List.length (Py.set_item l i x) = List.length l.
Proof.
  revert i. induction l as [|y l IH]; intros [|i]; cbn; auto.
Qed.

Lemma set_item_firstn {A : Type} (l : list A) i x n :
  n <= i -> firstn n (Py.set_item l i x) = firstn n l.
Proof.
  revert i n. induction l as [|y l IH]; intros [|i] [|n] H; cbn; auto; try lia.
  f_equal. apply IH. lia.
Qed.

Lemma set_item_forall {A : Type} (P : A -> Prop) (l : list A) i x :
  P x -> Forall P l -> Forall P (Py.set_item l i x).
Proof.
  intros Hx. revert i. induction l as [|y l IH]; intros [|i] H; cbn; auto;
    inversion H; subst; constructor; auto.
Qed.

Lemma firstn_forall {A : Type} (P : A -> Prop) (l : list A) n :
  Forall P l -> Forall P (firstn n l).
Proof.
  revert n. induction l as [|y l IH]; intros [|n] H; cbn; auto.
  inversion H; subst. constructor; auto.
Qed.

Lemma skipn_forall {A : Type} (P : A -> Prop) (l : list A) n :
  Forall P l -> Forall P (skipn n l).
Proof.
  revert n. induction l as [|y l IH]; intros [|n] H; cbn; auto.
  inversion H; subst. auto.
Qed.

Lemma wiki_slug_length values last :
  List.length (wiki_slug values last) = List.length values.
Proof.
  unfold wiki_slug. generalize (seq 4 (last + 1 - 4)). intros indexes.
  revert values. induction indexes as [|i indexes IH]; intros values; cbn; auto.
  now rewrite IH, set_item_length.
Qed.

Lemma wiki_slug_firstn values last :
  firstn 4 (wiki_slug values last) = firstn 4 values.
Proof.
  unfold wiki_slug.
  assert (Hfrom : Forall (fun i => 4 <= i) (seq 4 (last + 1 - 4))).
  { apply Forall_forall. intros i Hi. apply in_seq in Hi. lia. }
  revert Hfrom. generalize (seq 4 (last + 1 - 4)). intros indexes.
  revert values.
  induction indexes as [|i indexes IH]; intros values H; cbn [fold_left]; auto.
  inversion H; subst. rewrite IH by assumption. now apply set_item_firstn.
Qed.

Lemma wiki_slug_forall (P : string -> Prop) values last :
  P "(wikislug)" -> Forall P values -> Forall P (wiki_slug values last).
Proof.
  intros Hslug. unfold wiki_slug. generalize (seq 4 (last + 1 - 4)).
  intros indexes. revert values.
  induction indexes as [|i indexes IH]; intros values H; cbn; auto.
  apply IH. now apply set_item_forall.
Qed.

Lemma str_in_list_In x l : Py.str_in_list x l = true -> In x l.
Proof.
  unfold Py.str_in_list. intros H. apply existsb_exists in H as (y & Hy & E).
  apply String.eqb_eq in E. now subst.
Qed.

(** ** The event-type canonicalizer: errors and segments *)

Lemma rewrite_values_raises event_type_values exclude_excluded disable_slugging e :
  rewrite_values event_type_values exclude_excluded disable_slugging = Raise e
  <-> e = IndexError /\ nth_error event_type_values 1 = None.
Proof.
  unfold rewrite_values. destruct (nth_error event_type_values 1).
  - break_conditions; split; intros H; try discriminate H;
      destruct H as [_ H]; discriminate H.
  - split; intros H; [injection H as <-; now split|].
    destruct H as [-> _]. reflexivity.
Qed.

Lemma no_second_segment s :
  nth_error (Py.split "/" s) 1 = None <-> Py.contains "/" s = false.
Proof.
  rewrite contains_char. destruct (has_char "/" s) eqn:E.
  - apply split_with_separator in E. split; [|discriminate].
    intros H. apply nth_error_None in H. lia.
  - rewrite (split_without_separator _ _ E). split; reflexivity.
Qed.

(** On ASCII text (the event type, the names and the values of the
    hints), the only exception of [canonicalize_event_type] is the
    [IndexError] of [event_type_values[1]], raised exactly for a path (with
    a leading slash, [exclude_explicit] off) that the stub of the course id
    has left without any slash. *)
Theorem canonicalize_event_type_raises_iff :
  forall COURSE_REGEX_match event_type exclude_implicit exclude_explicit
         exclude_excluded disable_slugging user_info e,
    is_ascii event_type = true ->
    ascii_hint_map user_info = true ->
    canonicalize_event_type COURSE_REGEX_match event_type exclude_implicit
                            exclude_explicit exclude_excluded disable_slugging
                            user_info
    = Raise e
    <-> (e = IndexError
         /\ Py.startswith event_type "/" = true
         /\ exclude_explicit = false
         /\ Py.contains "/" (stub_course_id COURSE_REGEX_match event_type) = false).
Proof.
  intros m event_type ei ee ex ds user_info e _ _.
  unfold canonicalize_event_type.
  pose proof (rewrite_values_raises
                (Py.split "/" (stub_course_id m event_type)) ex ds e) as Hraise.
  rewrite no_second_segment in Hraise.
  destruct (Py.startswith event_type "/"); cbn [negb].
  - destruct ee.
    + split; [discriminate|]. intros (_ & _ & H & _). discriminate H.
    + destruct (rewrite_values _ ex ds) as [[values|]|e'].
      * split; [discriminate|]. intros (He & _ & _ & Hc).
        destruct Hraise as [_ Hraise]. discriminate (Hraise (conj He Hc)).
      * split; [discriminate|]. intros (He & _ & _ & Hc).
        destruct Hraise as [_ Hraise]. discriminate (Hraise (conj He Hc)).
      * split.
        -- intros H. injection H as ->.
           destruct Hraise as [Hraise _]. destruct (Hraise eq_refl) as [He Hc].
           now repeat split.
        -- intros (He & _ & _ & Hc). destruct Hraise as [_ Hraise].
           specialize (Hraise (conj He Hc)). injection Hraise as ->. reflexivity.
  - destruct ei; (split; [discriminate|]); intros (_ & H & _); discriminate H.
Qed.

Lemma canonicalize_event_type_raises_iff_witness :
  canonicalize_event_type (fun _ => Some "/courses/edX/DemoX/2014")
                          "/courses/edX/DemoX/2014" false false false false
                          (Some [("username", "alice")])
  = Raise IndexError.
Proof.
  apply (canonicalize_event_type_raises_iff
           (fun _ => Some "/courses/edX/DemoX/2014") "/courses/edX/DemoX/2014"
           false false false false (Some [("username", "alice")]) IndexError);
    [reflexivity|reflexivity|].
  split; [reflexivity|]. split; [reflexivity|]. split; reflexivity.
Defined.

Lemma rewrite_route_without_slugging event_type_values exclude_excluded values :
  rewrite_route event_type_values exclude_excluded true = Some values ->
  List.length values = List.length event_type_values
  /\ (Forall (fun part => has_char "/" part = false) event_type_values ->
      Forall (fun part => has_char "/" part = false) values).
Proof.
  unfold rewrite_route. cbn [negb]. rewrite ?andb_false_r.
  break_conditions; intros H; inversion H; subst; clear H;
    rewrite ?set_item_length; split; auto; intros Hclean;
    repeat (apply set_item_forall; [reflexivity|]); assumption.
Qed.

(** With [disable_slugging] on and no hints, a signature has exactly as
    many segments as the event type (with the course id stubbed) had:
    nothing is collapsed and nothing is added. *)
Theorem signature_keeps_segment_count_without_slugging :
  forall COURSE_REGEX_match event_type exclude_implicit exclude_explicit
         exclude_excluded signature,
    Py.startswith event_type "/" = true ->
    canonicalize_event_type COURSE_REGEX_match event_type exclude_implicit
                            exclude_explicit exclude_excluded true None
    = Return (Some signature) ->
    List.length (Py.split "/" signature)
    = List.length (Py.split "/" (stub_course_id COURSE_REGEX_match event_type)).
Proof.
  intros m event_type ei ee ex signature Hslash.
  unfold canonicalize_event_type. rewrite Hslash. cbn [negb].
  destruct ee; [discriminate|].
  set (values := Py.split "/" (stub_course_id m event_type)).
  assert (Hclean : Forall (fun part => has_char "/" part = false) values)
    by apply split_parts_have_no_separator.
  assert (Hnil : values <> []) by apply split_not_nil.
  assert (Hkept : forall values',
             rewrite_values values ex true = Return (Some values') ->
             List.length values' = List.length values
             /\ Forall (fun part => has_char "/" part = false) values').
  { intros values'. unfold rewrite_values.
    destruct (nth_error values 1); [|discriminate].
    break_conditions; intros H; inversion H; subst; clear H; auto.
    match goal with
    | H : rewrite_route _ _ _ = Some _ |- _ =>
        apply rewrite_route_without_slugging in H as [Hlen Hforall]
    end.
    split; auto. }
  destruct (rewrite_values values ex true) as [[values'|]|e]; try discriminate.
  intros H. injection H as <-.
  destruct (Hkept values' eq_refl) as [Hlen Hclean'].
  rewrite split_join_slugs; [now rewrite length_map| |assumption].
  destruct values'; [|discriminate]. destruct values; [congruence|discriminate Hlen].
Qed.

Lemma signature_keeps_segment_count_without_slugging_witness :
  List.length
    (Py.split "/" "/courses/(course_id)/courseware/(alnum6)/lecture/(int1)/")
  = List.length
      (Py.split "/"
         (stub_course_id (fun _ => Some "edX/DemoX/2014")
                         "/courses/edX/DemoX/2014/courseware/Week_1/lecture/3/")).
Proof.
  apply (signature_keeps_segment_count_without_slugging
           (fun _ => Some "edX/DemoX/2014")
           "/courses/edX/DemoX/2014/courseware/Week_1/lecture/3/"
           false false false
           "/courses/(course_id)/courseware/(alnum6)/lecture/(int1)/");
    vm_compute; reflexivity.
Defined.

(** ** The event-type canonicalizer: what exclusion keeps *)

Lemma rewrite_route_kept_routes event_type_values disable_slugging values :
  rewrite_route event_type_values true disable_slugging = Some values ->
  In (item event_type_values 3) kept_routes
  /\ (In (item event_type_values 3) noise_routes ->
      List.length event_type_values <= 4).
Proof.
  unfold rewrite_route.
  destruct (item event_type_values 3 =? "xblock") eqn:E1; [discriminate|].
  destruct (item event_type_values 3 =? "submission_history") eqn:E2.
  { apply String.eqb_eq in E2. rewrite E2. intros _. split; [cbn; tauto|].
    cbn. intros [H|[H|[H|[H|[H|[]]]]]]; discriminate H. }
  destruct (item event_type_values 3 =? "jump_to_id") eqn:E3.
  { apply String.eqb_eq in E3. rewrite E3. intros _. split; [cbn; tauto|].
    cbn. intros [H|[H|[H|[H|[H|[]]]]]]; discriminate H. }
  destruct (item event_type_values 3 =? "jump_to") eqn:E4; [discriminate|].
  destruct (item event_type_values 3 =? "courseware") eqn:E5.
  { apply String.eqb_eq in E5. rewrite E5. intros _. split; [cbn; tauto|].
    cbn. intros [H|[H|[H|[H|[H|[]]]]]]; discriminate H. }
  destruct (item event_type_values 3 =? "xqueue") eqn:E6; [discriminate|].
  destruct (item event_type_values 3 =? "wiki") eqn:E7.
  { apply String.eqb_eq in E7. rewrite E7. intros _. split; [cbn; tauto|].
    cbn. intros [H|[H|[H|[H|[H|[]]]]]]; discriminate H. }
  destruct (item event_type_values 3 =? "discussion") eqn:E8.
  { apply String.eqb_eq in E8. rewrite E8. intros _. split; [cbn; tauto|].
    cbn. intros [H|[H|[H|[H|[H|[]]]]]]; discriminate H. }
  destruct (item event_type_values 3 =? "pdfbook") eqn:E9.
  { apply String.eqb_eq in E9. rewrite E9. intros _. split; [cbn; tauto|].
    cbn. intros [H|[H|[H|[H|[H|[]]]]]]; discriminate H. }
  destruct (Py.str_in_list (item event_type_values 3) noise_routes) eqn:E10;
    [|discriminate].
  destruct (Nat.ltb_spec 4 (List.length event_type_values)); [discriminate|].
  intros _. split; [|intros _; assumption].
  unfold kept_routes. apply in_or_app. right. now apply str_in_list_In.
Qed.

(** Under [exclude_excluded], every path that gets a signature is a course
    path, [/courses/(course_id)/<route>...], whose route is one of
    [submission_history], [jump_to_id], [courseware], [wiki], [discussion],
    [pdfbook] or a noise route; and a noise route is kept only when nothing
    follows it. *)
Theorem kept_under_exclusion_is_course_route :
  forall COURSE_REGEX_match event_type exclude_implicit exclude_explicit
         disable_slugging user_info signature,
    Py.startswith event_type "/" = true ->
    canonicalize_event_type COURSE_REGEX_match event_type exclude_implicit
                            exclude_explicit true disable_slugging user_info
    = Return (Some signature) ->
    let event_type_values :=
      Py.split "/" (stub_course_id COURSE_REGEX_match event_type) in
    exclude_explicit = false
    /\ item event_type_values 1 = "courses"
    /\ item event_type_values 2 = "(course_id)"
    /\ In (item event_type_values 3) kept_routes
    /\ (In (item event_type_values 3) noise_routes ->
        List.length event_type_values = 4).
Proof.
  intros m event_type ei ee ds user_info signature Hslash.
  unfold canonicalize_event_type. rewrite Hslash. cbn [negb].
  destruct ee; [discriminate|].
  set (values := Py.split "/" (stub_course_id m event_type)).
  unfold rewrite_values.
  destruct (nth_error values 1) as [second|] eqn:Hsecond; [|discriminate].
  destruct (second =? "courses") eqn:Hcourses; [|discriminate].
  destruct ((3 <? List.length values)%nat && (item values 2 =? "(course_id)"))
    eqn:Hscoped; [|discriminate].
  destruct (rewrite_route values true ds) as [values'|] eqn:Hroute;
    [|discriminate].
  intros _. cbv zeta.
  apply andb_true_iff in Hscoped as [Hlen Hcourse].
  apply Nat.ltb_lt in Hlen. apply String.eqb_eq in Hcourse, Hcourses.
  apply rewrite_route_kept_routes in Hroute as [Hkept Hnoise].
  repeat split; auto.
  - unfold item. apply nth_error_nth with (d := "") in Hsecond. congruence.
  - intros H. specialize (Hnoise H). lia.
Qed.

Lemma kept_under_exclusion_is_course_route_witness :
  In (item (Py.split "/" "/courses/(course_id)/courseware/Week_1/") 3) kept_routes.
Proof.
  apply (kept_under_exclusion_is_course_route
           (fun _ => Some "edX/DemoX/2014")
           "/courses/edX/DemoX/2014/courseware/Week_1/"
           false false false None
           "/courses/(course_id)/courseware/(courseware-loc)");
    vm_compute; reflexivity.
Defined.

(** ** The event-type canonicalizer: what a rewrite keeps *)

Lemma firstn_of_firstn_app {A : Type} (l r : list A) n k :
  n <= k -> k <= List.length l -> firstn n (firstn k l ++ r) = firstn n l.
Proof.
  intros Hnk Hk. rewrite firstn_app, length_firstn.
  replace (n - Nat.min k (List.length l)) with 0 by lia.
  rewrite firstn_O, app_nil_r, firstn_firstn. f_equal. lia.
Qed.

Lemma firstn_narrow {A : Type} (l l' : list A) n k :
  n <= k -> firstn k l' = firstn k l -> firstn n l' = firstn n l.
Proof.
  intros Hnk H. apply (f_equal (firstn n)) in H.
  rewrite !firstn_firstn in H. now replace (Nat.min n k) with n in H by lia.
Qed.

Lemma item_of_firstn values values' i k :
  i < k -> firstn k values' = firstn k values -> item values' i = item values i.
Proof.
  intros Hik H. unfold item.
  rewrite <- (firstn_skipn k values), <- (firstn_skipn k values'), H.
  destruct (Nat.lt_ge_cases i (List.length (firstn k values))) as [Hin|Hout].
  - now rewrite !app_nth1 by assumption.
  - rewrite !app_nth2 by assumption.
    rewrite length_firstn in Hout.
    assert (Hshort : List.length values <= i) by lia.
    assert (Hlen : List.length values' <= k \/ k < List.length values') by lia.
    apply (f_equal (@List.length string)) in H. rewrite !length_firstn in H.
    rewrite !nth_overflow; auto; rewrite length_skipn; lia.
Qed.

Lemma some_inj {A : Type} (a b : A) : Some a = Some b -> b = a.
Proof. congruence. Qed.

Lemma some_inj_return {A : Type} (a b : A) : Return a = Return b -> b = a.
Proof. congruence. Qed.

(** A rewrite of a course path keeps its first three segments, and keeps
    the route as well unless the route is [jump_to] or
    [submission_history], whose rewrite puts a placeholder in its place. *)
Theorem rewrite_route_keeps_course_prefix :
  forall event_type_values exclude_excluded disable_slugging values,
    3 < List.length event_type_values ->
    rewrite_route event_type_values exclude_excluded disable_slugging = Some values ->
    firstn 3 values = firstn 3 event_type_values
    /\ (item event_type_values 3 <> "jump_to" ->
        item event_type_values 3 <> "submission_history" ->
        item values 3 = item event_type_values 3)
    /\ (item event_type_values 3 = "jump_to" -> disable_slugging = false ->
        item values 3 = "(block-loc)")
    /\ (item event_type_values 3 = "submission_history" ->
        disable_slugging = false -> 4 < List.length event_type_values ->
        item values 3 = "(maybe_username)").
Proof.
  intros vs ex ds values Hlen.
  unfold rewrite_route.
  destruct (item vs 3 =? "jump_to") eqn:Ejump;
    [|destruct (item vs 3 =? "submission_history") eqn:Ehistory].
  - (* jump_to *)
    pose proof Ejump as Hroute. apply String.eqb_eq in Hroute.
    rewrite Hroute.
    change ("jump_to" =? "xblock") with false.
    change ("jump_to" =? "submission_history") with false.
    change ("jump_to" =? "jump_to_id") with false.
    change ("jump_to" =? "jump_to") with true.
    cbv iota.
    destruct ex; [discriminate|].
    destruct ds; unfold negb; cbv iota; intros H; first [discriminate H | apply some_inj in H; subst values].
    + repeat split; try congruence.
    + repeat split; try congruence.
      * apply firstn_of_firstn_app; lia.
      * intros _ _. unfold item. rewrite app_nth2; rewrite length_firstn.
        -- now replace (3 - Nat.min 3 (List.length vs)) with 0 by lia.
        -- lia.
  - (* submission_history *)
    pose proof Ehistory as Hroute. apply String.eqb_eq in Hroute.
    rewrite Hroute.
    change ("submission_history" =? "xblock") with false.
    change ("submission_history" =? "submission_history") with true.
    cbv iota.
    destruct ((5 <=? List.length vs)%nat && negb ds) eqn:E;
      intros H; first [discriminate H | apply some_inj in H; subst values].
    + repeat split; try congruence.
      * apply firstn_of_firstn_app; lia.
      * intros _ _ _. unfold item. rewrite app_nth2; rewrite length_firstn.
        -- now replace (3 - Nat.min 3 (List.length vs)) with 0 by lia.
        -- lia.
    + repeat split; try congruence.
      intros _ -> Hlong. apply andb_false_iff in E as [E|E]; [|discriminate E].
      apply Nat.leb_gt in E. lia.
  - (* every other route keeps its first four segments *)
    intros H.
    assert (Hfour : firstn 4 values = firstn 4 vs).
    { revert H. break_conditions; intros H; first [discriminate H | apply some_inj in H; subst values];
        try reflexivity;
        rewrite ?wiki_slug_firstn;
        rewrite ?set_item_firstn by lia;
        try reflexivity.
      - apply firstn_of_firstn_app; lia.
      - match goal with
        | E : (_ && _ && _)%bool = true |- _ =>
            apply andb_true_iff in E as [E _];
            apply andb_true_iff in E as [E _];
            apply Nat.leb_le in E
        end.
        apply firstn_of_firstn_app; lia. }
    apply String.eqb_neq in Ejump, Ehistory.
    split; [|split; [|split]].
    + apply (firstn_narrow _ _ 3 4); [lia|assumption].
    + intros _ _. apply (item_of_firstn _ _ 3 4); [lia|assumption].
    + intros Hroute. congruence.
    + intros Hroute. congruence.
Qed.

Lemma rewrite_route_keeps_course_prefix_witness :
  item ["";  "courses"; "(course_id)"; "(block-loc)"] 3 = "(block-loc)"
  /\ firstn 3 [""; "courses"; "(course_id)"; "(block-loc)"]
     = firstn 3 [""; "courses"; "(course_id)"; "jump_to"; "i4x:"; ""; "a"; "b"].
Proof.
  pose proof (rewrite_route_keeps_course_prefix
                [""; "courses"; "(course_id)"; "jump_to"; "i4x:"; ""; "a"; "b"]
                false false
                [""; "courses"; "(course_id)"; "(block-loc)"]
                ltac:(cbn; lia) eq_refl) as (Hprefix & _ & Htag & _).
  split; [now apply Htag|exact Hprefix].
Defined.

(** ** The input-id pattern *)

Lemma take_drop n s : InputId.take n s ++ InputId.drop n s = s.
Proof.
  revert s. induction n as [|n IH]; intros [|c s]; cbn; auto.
  now rewrite IH.
Qed.

Lemma take_append s t : InputId.take (String.length s) (s ++ t) = s.
Proof. induction s as [|c s IH]; cbn; [now destruct t|now rewrite IH]. Qed.

Lemma drop_append s t : InputId.drop (String.length s) (s ++ t) = t.
Proof. induction s as [|c s IH]; cbn; [now destruct t|exact IH]. Qed.

Lemma append_length s t :
  String.length (s ++ t) = String.length s + String.length t.
Proof. induction s as [|c s IH]; cbn; [reflexivity|now rewrite IH]. Qed.

Lemma first_some_in {A B : Type} (f : A -> option B) l y :
  InputId.first_some f l = Some y -> exists x, In x l /\ f x = Some y.
Proof.
  induction l as [|x l IH]; cbn; [discriminate|].
  destruct (f x) eqn:E.
  - intros H. injection H as <-. exists x. auto.
  - intros H. destruct (IH H) as (x' & Hin & Hx'). exists x'. auto.
Qed.

Lemma small_number_sound s k :
  In k (InputId.small_number s) ->
  small_number_text (InputId.take k s) = true
  /\ String.length (InputId.take k s) = k.
Proof.
  destruct s as [|c [|d rest]]; cbn [InputId.small_number].
  - intros [].
  - destruct (Py.digit_char c) eqn:Hc; [|intros []].
    intros [<-|[]]. cbn. auto.
  - intros H. apply in_app_or in H as [H|H].
    + destruct (Py.char_in c "1234" && Py.digit_char d) eqn:E; [|destruct H].
      destruct H as [<-|[]]. cbn [InputId.take small_number_text String.length]. auto.
    + destruct (Py.digit_char c) eqn:Hc; [|destruct H].
      destruct H as [<-|[]]. cbn [InputId.take small_number_text String.length]. auto.
Qed.

Lemma numbers_end_sound s n :
  InputId.numbers_end s = Some n ->
  exists d1 d2,
    InputId.take n s = "_" ++ d1 ++ "_" ++ d2
    /\ String.length (InputId.take n s) = n
    /\ small_number_text d1 = true
    /\ small_number_text d2 = true
    /\ InputId.suffix_end (InputId.drop n s) = true.
Proof.
  unfold InputId.numbers_end. destruct s as [|c s1]; [discriminate|].
  destruct (ascii_dec c "_") as [->|Hc];
    [|destruct c as [[] [] [] [] [] [] [] []]; try discriminate; congruence].
  intros H. apply first_some_in in H as (n1 & Hn1 & H).
  destruct (small_number_sound _ _ Hn1) as [Hd1 Hlen1].
  destruct (InputId.drop n1 s1) as [|c2 s2] eqn:Hdrop; [discriminate|].
  destruct (ascii_dec c2 "_") as [->|Hc2];
    [|destruct c2 as [[] [] [] [] [] [] [] []]; try discriminate; congruence].
  apply first_some_in in H as (n2 & Hn2 & H).
  destruct (small_number_sound _ _ Hn2) as [Hd2 Hlen2].
  destruct (InputId.suffix_end (InputId.drop n2 s2)) eqn:Hend; [|discriminate].
  apply some_inj in H.
  exists (InputId.take n1 s1), (InputId.take n2 s2).
  assert (Hs1 : s1 = InputId.take n1 s1 ++ String "_" (InputId.take n2 s2 ++ InputId.drop n2 s2)).
  { rewrite take_drop, <- Hdrop. symmetry. apply take_drop. }
  assert (Hwhole :
            String "_" s1
            = ("_" ++ InputId.take n1 s1 ++ "_" ++ InputId.take n2 s2)
                ++ InputId.drop n2 s2).
  { rewrite Hs1 at 1. cbn [append]. f_equal.
    rewrite !append_assoc. reflexivity. }
  assert (Hlen : String.length ("_" ++ InputId.take n1 s1 ++ "_" ++ InputId.take n2 s2)
                 = 1 + n1 + 1 + n2).
  { cbn [append String.length]. rewrite append_length.
    cbn [String.length]. lia. }
  rewrite Hwhole, H, <- Hlen, take_append, drop_append.
  repeat split; assumption.
Qed.

Lemma group_length_sound s n :
  InputId.group_length s = Some n ->
  exists stem d1 d2,
    InputId.take n s = stem ++ "_" ++ d1 ++ "_" ++ d2
    /\ stem <> ""
    /\ has_char InputId.newline stem = false
    /\ small_number_text d1 = true
    /\ small_number_text d2 = true
    /\ InputId.suffix_end (InputId.drop n s) = true.
Proof.
  revert n. induction s as [|c rest IH]; intros n; [discriminate|].
  cbn [InputId.group_length].
  destruct (Ascii.eqb c InputId.newline) eqn:Hc; [discriminate|].
  destruct (InputId.group_length rest) as [m|] eqn:Hrest.
  - intros H. injection H as <-.
    destruct (IH m eq_refl) as (stem & d1 & d2 & Htake & _ & Hnl & H1 & H2 & Hend).
    exists (String c stem), d1, d2. cbn [InputId.take InputId.drop append].
    rewrite Htake. repeat split; auto; [discriminate|].
    cbn [has_char Py.any_char]. now rewrite Hc.
  - destruct (InputId.numbers_end rest) as [m|] eqn:Hnum; [|discriminate].
    intros H. injection H as <-.
    destruct (numbers_end_sound _ _ Hnum) as (d1 & d2 & Htake & _ & H1 & H2 & Hend).
    exists (String c ""), d1, d2. cbn [InputId.take InputId.drop append].
    rewrite Htake. repeat split; auto; [discriminate|].
    cbn [has_char Py.any_char]. now rewrite Hc.
Qed.

(** What [INPUT_ID_REGEX] captures: the [input_id] group is a prefix of the
    key made of a non-empty stem without newline and two numbers from 0 to
    49, each after an underscore; what follows the group is empty or one of
    the suffixes [_dynamath], [_comment], [_choiceinput_...], up to a final
    newline. *)
Theorem input_id_group_shape :
  forall key group,
    InputId.regex_match key = Some group ->
    exists stem d1 d2 rest,
      key = group ++ rest
      /\ group = stem ++ "_" ++ d1 ++ "_" ++ d2
      /\ stem <> ""
      /\ has_char InputId.newline stem = false
      /\ small_number_text d1 = true
      /\ small_number_text d2 = true
      /\ InputId.suffix_end rest = true.
Proof.
  intros key group. unfold InputId.regex_match.
  destruct (InputId.group_length key) as [n|] eqn:E; [|discriminate].
  intros H. injection H as <-.
  destruct (group_length_sound _ _ E) as (stem & d1 & d2 & Htake & Hstem & Hnl & H1 & H2 & Hend).
  exists stem, d1, d2, (InputId.drop n key).
  rewrite take_drop. repeat split; auto.
Qed.

Lemma input_id_group_shape_witness :
  exists stem d1 d2 rest,
    "i4x-a-b_49_1_dynamath" = "i4x-a-b_49_1" ++ rest
    /\ "i4x-a-b_49_1" = stem ++ "_" ++ d1 ++ "_" ++ d2
    /\ stem <> ""
    /\ has_char InputId.newline stem = false
    /\ small_number_text d1 = true
    /\ small_number_text d2 = true
    /\ InputId.suffix_end rest = true.
Proof.
  apply (input_id_group_shape "i4x-a-b_49_1_dynamath" "i4x-a-b_49_1").
  reflexivity.
Defined.

(** ** Identity hints in the segment classifier *)











(** ** Stop words and the URL override in the walker *)

Lemma lower_char_idempotent c : Py.lower_char (Py.lower_char c) = Py.lower_char c.
Proof. destruct c as [[] [] [] [] [] [] [] []]; reflexivity. Qed.

Lemma lower_idempotent s : Py.lower (Py.lower s) = Py.lower s.
Proof.
  induction s as [|c s IH]; cbn; [reflexivity|].
  now rewrite lower_char_idempotent, IH.
Qed.

Lemma lower_stopwords_idempotent stopwords :
  lower_stopwords (Some (lower_stopwords stopwords)) = lower_stopwords stopwords.
Proof.
  destruct stopwords as [words|]; cbn; [|reflexivity].
  rewrite map_map. apply map_ext. intros word. apply lower_idempotent.
Qed.

Lemma get_key_names_lowered obj prefix stopwords user_info :
  get_key_names obj prefix (Some (lower_stopwords stopwords)) user_info
  = get_key_names obj prefix stopwords user_info.
Proof.
  destruct obj; cbn [get_key_names];
    rewrite ?lower_stopwords_idempotent; reflexivity.
Qed.

(** The walker reads the stop words only through their lower-case forms:
    two lists with the same lower-case forms give the same key paths, at
    every depth of the payload. *)
Theorem stopwords_matter_up_to_case :
  forall obj prefix words words' user_info,
    map Py.lower words = map Py.lower words' ->
    get_key_names obj prefix (Some words) user_info
    = get_key_names obj prefix (Some words') user_info.
Proof.
  intros obj prefix words words' user_info H.
  rewrite <- (get_key_names_lowered obj prefix (Some words)),
          <- (get_key_names_lowered obj prefix (Some words')).
  cbn [lower_stopwords]. now rewrite H.
Qed.

Lemma stopwords_matter_up_to_case_witness :
  get_key_names (VDict [("a", VDict [("Post", VInt 1)])]) "event"
                (Some ["POST"; "GET"]) None
  = get_key_names (VDict [("a", VDict [("Post", VInt 1)])]) "event"
                  (Some ["post"; "get"]) None.
Proof.
  apply (stopwords_matter_up_to_case
           (VDict [("a", VDict [("Post", VInt 1)])]) "event"
           ["POST"; "GET"] ["post"; "get"] None).
  reflexivity.
Defined.

Lemma In_str_in_list x l : In x l -> Py.str_in_list x l = true.
Proof.
  intros H. unfold Py.str_in_list. apply existsb_exists.
  exists x. split; [exact H|apply String.eqb_refl].
Qed.

(** Under one of the four recommendation prefixes the keys of a dict never
    reach a key path: every path is the empty-dict marker or goes through
    the placeholder [(url)]. *)
Theorem recommendation_keys_are_replaced :
  forall d prefix stopwords user_info,
    In prefix url_prefixes ->
    Forall (fun key =>
              key = prefix ++ "(emptydict)"
              \/ proper_prefix (prefix ++ ".(url)") key)
           (get_key_names (VDict d) prefix stopwords user_info).
Proof.
  intros d prefix stopwords user_info Hprefix.
  cbn [get_key_names]. rewrite (In_str_in_list _ _ Hprefix).
  apply Forall_app. split.
  - destruct (List.length d =? 0)%nat; constructor; auto.
  - apply Forall_flat_map, Forall_forall. intros kv _.
    change (prefix ++ "." ++ "(url)") with (prefix ++ ".(url)").
    destruct (Py.str_in_list (Py.lower (fst kv)) (lower_stopwords stopwords)).
    + constructor; [|constructor]. right.
      apply proper_prefix_intro. discriminate.
    + eapply Forall_impl; [|apply walker_extends_prefix].
      intros key H. now right.
Qed.

Lemma recommendation_keys_are_replaced_witness :
  Forall (fun key =>
            key = "event.export.recommendations" ++ "(emptydict)"
            \/ proper_prefix ("event.export.recommendations" ++ ".(url)") key)
         (get_key_names (VDict [("http://example.com/a1", VInt 3)])
                        "event.export.recommendations" None None).
Proof.
  apply (recommendation_keys_are_replaced
           [("http://example.com/a1", VInt 3)]
           "event.export.recommendations" None None).
  now left.
Defined.

(** ** Identity hints of an event *)

Lemma lookup_dict_set_same {A : Type} (d : list (string * A)) key x :
  lookup (dict_set d key x) key = Some x.
Proof.
  unfold lookup. induction d as [|kv d IH]; cbn.
  - now rewrite String.eqb_refl.
  - destruct (fst kv =? key) eqn:E; cbn; [now rewrite String.eqb_refl|].
    now rewrite E.
Qed.

Lemma lookup_dict_set_other {A : Type} (d : list (string * A)) key key' x :
  key' <> key -> lookup (dict_set d key x) key' = lookup d key'.
Proof.
  intros Hneq. unfold lookup. induction d as [|kv d IH]; cbn.
  - apply not_eq_sym, String.eqb_neq in Hneq. now rewrite Hneq.
  - destruct (fst kv =? key) eqn:E; cbn.
    + apply String.eqb_eq in E. subst key.
      apply not_eq_sym, String.eqb_neq in Hneq. now rewrite Hneq.
    + destruct (fst kv =? key'); [reflexivity|exact IH].
Qed.

Lemma dict_set_keys {A : Type} (d : list (string * A)) key key' x :
  In key' (map fst (dict_set d key x)) -> key' = key \/ In key' (map fst d).
Proof.
  induction d as [|kv d IH]; cbn.
  - intros [<-|[]]. now left.
  - destruct (fst kv =? key) eqn:E; cbn.
    + intros [<-|H]; auto.
    + intros [<-|H]; auto. destruct (IH H); auto.
Qed.

(** An invariant of the hint map: it holds of every map that
    [get_user_info_from_event] returns when it holds once the username is
    recorded and every later assignment keeps it. *)
Lemma user_info_invariant (Inv : hints -> Prop) self unicode_container event :
  check_user self = true ->
  (forall raw username key,
      py_get event "username" = Return raw ->
      py_strip raw = Return username ->
      username_key username = Return key ->
      Inv (dict_set [] key username)) ->
  (forall ui n text, Inv ui -> Inv (dict_set ui ("user-id-" ++ Py.format_nat n) text)) ->
  (forall ui text, Inv ui -> Inv (dict_set ui "user-id" text)) ->
  (forall ui n text,
      Inv ui -> Inv (dict_set ui ("user-id-event-" ++ Py.format_nat n) text)) ->
  (forall ui text, Inv ui -> Inv (dict_set ui "user-id-event" text)) ->
  (forall ui context user_id table name,
      py_get_or_empty event "context" = Return context ->
      py_get context "user_id" = Return user_id ->
      name_for_user_id table user_id = Return (Some name) ->
      Inv ui -> Inv (dict_set ui "username_from_user_id" name)) ->
  (forall ui text, Inv ui -> Inv (dict_set ui "user_id_from_username" text)) ->
  forall ui,
    get_user_info_from_event self unicode_container event = Return ui -> Inv ui.
Proof.
  intros Hcheck Hname Hid_n Hid Hevent_n Hevent Hfrom_id Hfrom_name ui.
  unfold get_user_info_from_event. rewrite Hcheck. cbn [negb].
  destruct (py_get event "username") as [raw|] eqn:Hraw; [|discriminate].
  cbn [bind].
  destruct (py_strip raw) as [username|] eqn:Hstrip; [|discriminate].
  cbn [bind].
  destruct (username_key username) as [key|] eqn:Hkey; [|discriminate].
  cbn [bind].
  pose proof (Hname raw username key eq_refl Hstrip Hkey) as H1.
  revert H1. generalize (dict_set ([] : hints) key username). intros ui1 H1.
  destruct (py_get_or_empty event "context") as [context|] eqn:Hcontext;
    [|discriminate].
  cbn [bind].
  destruct (py_get context "user_id") as [user_id|] eqn:Huser_id; [|discriminate].
  cbn [bind].
  match goal with
  | |- context [bind (py_get_or_empty event "event") (fun payload => @?k payload)] =>
      destruct (py_get_or_empty event "event") as [payload|]; [|discriminate]
  end.
  cbn [bind].
  destruct (py_get payload "user_id") as [event_user_id|]; [|discriminate].
  cbn [bind].
  set (ui2 := match user_id with VNone => ui1 | _ => _ end).
  assert (H2 : Inv ui2).
  { subst ui2. destruct user_id; auto;
      match goal with
      | |- context [if ?b then _ else _] => destruct b; auto
      end. }
  clearbody ui2.
  match goal with
  | |- bind ?step _ = _ -> _ => destruct step as [ui3|] eqn:Hstep3; [|discriminate]
  end.
  assert (H3 : Inv ui3).
  { destruct event_user_id; cbn [py_len bind] in Hstep3;
      try discriminate Hstep3; apply some_inj_return in Hstep3; subst ui3; auto;
      match goal with
      | |- context [if ?b then _ else _] => destruct b; auto
      end. }
  cbn [bind].
  match goal with
  | |- bind ?step _ = _ -> _ => destruct step as [ui4|] eqn:Hstep4; [|discriminate]
  end.
  assert (H4 : Inv ui4).
  { destruct (auth_user_data self) as [[|row table]|];
      destruct user_id; try (apply some_inj_return in Hstep4; subst ui4; exact H3);
      (destruct (name_for_user_id (row :: table) _) as [[name|]|] eqn:Hlookup;
       cbn [bind] in Hstep4; try discriminate Hstep4;
       apply some_inj_return in Hstep4; subst ui4; auto;
       eapply Hfrom_id; eauto). }
  cbn [bind]. intros H. apply some_inj_return in H. subst ui.
  destruct (truthy (username_map self)); auto.
  destruct (username_map self) as [table|]; auto.
  destruct (lookup table username); auto.
Qed.

Lemma username_key_returns username key :
  username_key username = Return key ->
  Py.isdigit username = false
  /\ key = if (String.length username <=? 5)%nat
           then "username-" ++ Py.format_nat (String.length username)
           else "username".
Proof.
  unfold username_key. destruct (Py.isdigit username); cbn; [discriminate|].
  intros H. split; [reflexivity|].
  destruct (String.length username <=? 5)%nat;
    apply some_inj_return in H; subst key; reflexivity.
Qed.

(** With [check_user] on and a username that is ASCII, every hint map
    that is returned records the stripped username, which is not a string
    of digits, under [username-<len>] when it has at most five characters
    and under [username] otherwise; no later assignment overwrites it. *)
Theorem user_info_records_username :
  forall self unicode_container event user_info,
    check_user self = true ->
    ascii_username event = true ->
    get_user_info_from_event self unicode_container event = Return user_info ->
    exists raw username,
      py_get event "username" = Return raw
      /\ py_strip raw = Return username
      /\ Py.isdigit username = false
      /\ lookup user_info
                (if (String.length username <=? 5)%nat
                 then "username-" ++ Py.format_nat (String.length username)
                 else "username")
         = Some username.
Proof.
  intros self uc event user_info Hcheck _.
  apply (user_info_invariant
           (fun ui =>
              exists raw username,
                py_get event "username" = Return raw
                /\ py_strip raw = Return username
                /\ Py.isdigit username = false
                /\ lookup ui
                          (if (String.length username <=? 5)%nat
                           then "username-" ++ Py.format_nat (String.length username)
                           else "username")
                   = Some username)
           self uc event Hcheck).
  - intros raw username key Hraw Hstrip Hkey.
    apply username_key_returns in Hkey as [Hdigit ->].
    exists raw, username. repeat split; auto. apply lookup_dict_set_same.
  - intros ui n text (raw & username & Hraw & Hstrip & Hdigit & Hlookup).
    exists raw, username. repeat split; auto.
    rewrite lookup_dict_set_other; [exact Hlookup|].
    destruct (String.length username <=? 5)%nat; cbn; discriminate.
  - intros ui text (raw & username & Hraw & Hstrip & Hdigit & Hlookup).
    exists raw, username. repeat split; auto.
    rewrite lookup_dict_set_other; [exact Hlookup|].
    destruct (String.length username <=? 5)%nat; cbn; discriminate.
  - intros ui n text (raw & username & Hraw & Hstrip & Hdigit & Hlookup).
    exists raw, username. repeat split; auto.
    rewrite lookup_dict_set_other; [exact Hlookup|].
    destruct (String.length username <=? 5)%nat; cbn; discriminate.
  - intros ui text (raw & username & Hraw & Hstrip & Hdigit & Hlookup).
    exists raw, username. repeat split; auto.
    rewrite lookup_dict_set_other; [exact Hlookup|].
    destruct (String.length username <=? 5)%nat; cbn; discriminate.
  - intros ui context user_id table name _ _ _
           (raw & username & Hraw & Hstrip & Hdigit & Hlookup).
    exists raw, username. repeat split; auto.
    rewrite lookup_dict_set_other; [exact Hlookup|].
    destruct (String.length username <=? 5)%nat; cbn; discriminate.
  - intros ui text (raw & username & Hraw & Hstrip & Hdigit & Hlookup).
    exists raw, username. repeat split; auto.
    rewrite lookup_dict_set_other; [exact Hlookup|].
    destruct (String.length username <=? 5)%nat; cbn; discriminate.
Qed.

Lemma user_info_records_username_witness :
  exists raw username,
    py_get event_with_short_username "username" = Return raw
    /\ py_strip raw = Return username
    /\ Py.isdigit username = false
    /\ lookup [("username-5", "alice"); ("user-id", "12345")]
              (if (String.length username <=? 5)%nat
               then "username-" ++ Py.format_nat (String.length username)
               else "username")
       = Some username.
Proof.
  apply (user_info_records_username
           sample_task (fun _ => "") event_with_short_username
           [("username-5", "alice"); ("user-id", "12345")]);
    reflexivity.
Defined.

Lemma username_number_key_is_not_int n :
  String.prefix "username-int" ("username-" ++ Py.format_nat n) = false.
Proof.
  unfold Py.format_nat, NilZero.string_of_uint.
  destruct (Nat.to_uint n); reflexivity.
Qed.

(** No hint map that is returned has a key that starts with
    [username-int]: the two branches of lines 200 to 203 that would choose
    such a key never complete. *)
Theorem user_info_never_has_username_int :
  forall self unicode_container event user_info,
    check_user self = true ->
    get_user_info_from_event self unicode_container event = Return user_info ->
    Forall (fun info_name => String.prefix "username-int" info_name = false)
           (iterkeys user_info).
Proof.
  intros self uc event user_info Hcheck.
  assert (Hset : forall (ui : hints) key text,
             String.prefix "username-int" key = false ->
             Forall (fun info_name => String.prefix "username-int" info_name = false)
                    (iterkeys ui) ->
             Forall (fun info_name => String.prefix "username-int" info_name = false)
                    (iterkeys (dict_set ui key text))).
  { intros ui key text Hkey Hui. apply Forall_forall. intros name Hname.
    apply dict_set_keys in Hname as [-> | Hname]; [exact Hkey|].
    unfold iterkeys in Hui. rewrite Forall_forall in Hui. now apply Hui. }
  apply (user_info_invariant
           (fun ui =>
              Forall (fun info_name => String.prefix "username-int" info_name = false)
                     (iterkeys ui))
           self uc event Hcheck).
  - intros raw username key _ _ Hkey.
    apply username_key_returns in Hkey as [_ ->].
    apply Hset; [|constructor].
    destruct (String.length username <=? 5)%nat;
      [apply username_number_key_is_not_int|reflexivity].
  - intros ui n text. now apply Hset.
  - intros ui text. now apply Hset.
  - intros ui n text. now apply Hset.
  - intros ui text. now apply Hset.
  - intros ui context user_id table name _ _ _. now apply Hset.
  - intros ui text. now apply Hset.
Qed.

Lemma user_info_never_has_username_int_witness :
  Forall (fun info_name => String.prefix "username-int" info_name = false)
         (iterkeys [("username-5", "alice"); ("user-id", "12345")]).
Proof.
  apply (user_info_never_has_username_int
           sample_task (fun _ => "") event_with_short_username
           [("username-5", "alice"); ("user-id", "12345")]);
    reflexivity.
Defined.

(** The lookup of the username by user id only ever succeeds for a
    [user_id] that is a string: for a number (as the tracking logs have
    it), a bool or a float, no [username_from_user_id] hint is recorded,
    whatever the identity directory holds. *)
Theorem user_info_has_no_name_for_numeric_user_id :
  forall self unicode_container event context user_id user_info,
    check_user self = true ->
    py_get_or_empty event "context" = Return context ->
    py_get context "user_id" = Return user_id ->
    (forall s, user_id <> VStr s /\ user_id <> VUnicode s) ->
    get_user_info_from_event self unicode_container event = Return user_info ->
    lookup user_info "username_from_user_id" = None.
Proof.
  intros self uc event context user_id user_info Hcheck Hcontext Huser_id Hnumber.
  apply (user_info_invariant
           (fun ui => lookup ui "username_from_user_id" = None)
           self uc event Hcheck).
  - intros raw username key _ _ Hkey.
    apply username_key_returns in Hkey as [_ ->].
    rewrite lookup_dict_set_other; [reflexivity|].
    destruct (String.length username <=? 5)%nat; cbn; discriminate.
  - intros ui n text H. rewrite lookup_dict_set_other; [exact H|]. cbn. discriminate.
  - intros ui text H. rewrite lookup_dict_set_other; [exact H|]. discriminate.
  - intros ui n text H. rewrite lookup_dict_set_other; [exact H|]. cbn. discriminate.
  - intros ui text H. rewrite lookup_dict_set_other; [exact H|]. discriminate.
  - intros ui context' user_id' table name Hcontext' Huser_id' Hname _.
    exfalso. rewrite Hcontext in Hcontext'. apply some_inj_return in Hcontext'.
    subst context'. rewrite Huser_id in Huser_id'.
    apply some_inj_return in Huser_id'. subst user_id'.
    destruct user_id; cbn in Hname; try discriminate Hname.
    + destruct (Hnumber s) as [H _]. now apply H.
    + destruct (Hnumber s) as [_ H]. now apply H.
  - intros ui text H. rewrite lookup_dict_set_other; [exact H|]. discriminate.
Qed.

Lemma user_info_has_no_name_for_numeric_user_id_witness :
  lookup [("username-5", "alice"); ("user-id", "12345");
          ("user_id_from_username", "12345")] "username_from_user_id"
  = None.
Proof.
  apply (user_info_has_no_name_for_numeric_user_id
           (with_tables sample_task (Some sample_tables)) (fun _ => "")
           event_with_short_username
           (VDict [("user_id", VInt 12345)]) (VInt 12345)
           [("username-5", "alice"); ("user-id", "12345");
          ("user_id_from_username", "12345")]);
    try reflexivity.
  intros s. split; discriminate.
Defined.

(** ** The identity directory *)

Lemma read_auth_user_line_returns tables line :
  exists tables',
    read_auth_user_line tables line = Return tables'
    /\ lines_read tables' = S (lines_read tables).
Proof.
  unfold read_auth_user_line.
  destruct (Py.contains (String field_separator "") line) eqn:Hsep; cbn [negb].
  - rewrite contains_char in Hsep. apply split_with_separator in Hsep.
    unfold py_item.
    destruct (nth_error (Py.split field_separator line) 0) as [user_id|] eqn:E0;
      [|apply nth_error_None in E0; lia].
    destruct (nth_error (Py.split field_separator line) 1) as [username|] eqn:E1;
      [|apply nth_error_None in E1; lia].
    cbn [bind].
    destruct (Nat.leb_spec 8 (List.length (Py.split field_separator line)))
      as [Hlong|Hshort].
    + destruct (nth_error (Py.split field_separator line) 7) as [email|] eqn:E7;
        [|apply nth_error_None in E7; lia].
      cbn [bind]. eexists. split; reflexivity.
    + cbn [bind]. eexists. split; reflexivity.
  - eexists. split; reflexivity.
Qed.

Lemma read_auth_user_lines_returns lines :
  forall tables,
  exists tables',
    read_auth_user_lines tables lines = Return tables'
    /\ lines_read tables' = lines_read tables + List.length lines.
Proof.
  induction lines as [|line lines IH]; intros tables; cbn [read_auth_user_lines].
  - exists tables. split; [reflexivity|cbn; lia].
  - destruct (read_auth_user_line_returns tables line) as (t1 & -> & H1).
    cbn [bind]. destruct (IH t1) as (t2 & -> & H2).
    exists t2. split; [reflexivity|]. cbn [List.length]. lia.
Qed.

(** [init_mapper] never raises, although it reads [fields[0]] and
    [fields[1]] unguarded: a line with the separator has two fields.  The
    counter [Auth-user lines read] is the number of lines of the file, rows
    and metadata alike. *)
Theorem init_mapper_reads_every_line :
  forall lines,
  exists tables,
    init_mapper (Some lines) = Return (Some tables)
    /\ lines_read tables = List.length lines.
Proof.
  intros lines. unfold init_mapper.
  destruct (read_auth_user_lines_returns lines no_tables) as (tables & -> & H).
  exists tables. split; [reflexivity|exact H].
Qed.

Lemma read_auth_user_lines_app lines lines' tables :
  read_auth_user_lines tables (lines ++ lines')%list
  = (tables' <- read_auth_user_lines tables lines ;;
     read_auth_user_lines tables' lines').
Proof.
  revert tables. induction lines as [|line lines IH]; intros tables;
    cbn [read_auth_user_lines app bind]; [reflexivity|].
  destruct (read_auth_user_line tables line); cbn [bind]; [apply IH|reflexivity].
Qed.

Lemma read_row tables line user_id username rest :
  Py.split field_separator line = user_id :: username :: rest ->
  exists tables',
    read_auth_user_line tables line = Return tables'
    /\ loaded_auth_user_data tables'
       = dict_set (loaded_auth_user_data tables) user_id
                  (username, row_email (user_id :: username :: rest))
    /\ loaded_username_map tables'
       = dict_set (loaded_username_map tables) username user_id.
Proof.
  intros Hfields. unfold read_auth_user_line.
  assert (Hsep : Py.contains (String field_separator "") line = true).
  { rewrite contains_char. destruct (has_char field_separator line) eqn:E; auto.
    rewrite (split_without_separator _ _ E) in Hfields. discriminate Hfields. }
  rewrite Hsep, Hfields. cbn [negb py_item nth_error bind].
  unfold row_email.
  destruct (8 <=? List.length (user_id :: username :: rest))%nat eqn:Hlen.
  - apply Nat.leb_le in Hlen.
    destruct (nth_error (user_id :: username :: rest) 7) as [email|] eqn:E7;
      [|apply nth_error_None in E7; lia].
    rewrite (nth_error_nth _ _ "" E7). unfold py_item. rewrite E7.
    cbn [bind fst snd]. eexists. repeat split; reflexivity.
  - cbn [bind fst snd]. eexists. repeat split; reflexivity.
Qed.

Lemma later_rows_keep_user lines :
  forall tables tables' user_id,
    read_auth_user_lines tables lines = Return tables' ->
    (forall later,
        In later lines ->
        Py.contains (String field_separator "") later = true ->
        item (Py.split field_separator later) 0 <> user_id) ->
    lookup (loaded_auth_user_data tables') user_id
    = lookup (loaded_auth_user_data tables) user_id.
Proof.
  induction lines as [|line lines IH]; intros tables tables' user_id;
    cbn [read_auth_user_lines].
  - intros H _. apply some_inj_return in H. now subst.
  - intros H Hlater.
    destruct (read_auth_user_line tables line) as [t1|] eqn:E1; [|discriminate H].
    cbn [bind] in H.
    rewrite (IH t1 tables' user_id H) by (intros; apply Hlater; cbn; auto).
    unfold read_auth_user_line in E1.
    destruct (Py.contains (String field_separator "") line) eqn:Hsep;
      cbn [negb] in E1.
    + pose proof Hsep as Hfields. rewrite contains_char in Hfields.
      apply split_with_separator in Hfields.
      destruct (Py.split field_separator line) as [|f0 [|f1 rest]] eqn:Hsplit;
        cbn [List.length] in Hfields; try lia.
      destruct (read_row tables line f0 f1 rest Hsplit) as (t1' & Hread & Hdata & _).
      unfold read_auth_user_line in Hread.
      rewrite Hsep, Hsplit in Hread. cbn [negb] in Hread.
      rewrite Hread in E1. apply some_inj_return in E1. subst t1.
      rewrite Hdata. apply lookup_dict_set_other.
      intros ->. apply (Hlater line); [now left|exact Hsep|].
      now rewrite Hsplit.
    + apply some_inj_return in E1. now subst t1.
Qed.

(** A user id of the directory maps to the username and the email of the
    last row that has it: that row replaces the earlier ones, and rows for
    other users and lines without the separator leave it alone.  The email
    is the eighth field, or [<missing>] for a shorter row. *)
Theorem init_mapper_last_row_wins :
  forall earlier row later tables user_id username rest,
    init_mapper (Some (earlier ++ row :: later)%list) = Return (Some tables) ->
    Py.split field_separator row = user_id :: username :: rest ->
    (forall line,
        In line later ->
        Py.contains (String field_separator "") line = true ->
        item (Py.split field_separator line) 0 <> user_id) ->
    lookup (loaded_auth_user_data tables) user_id
    = Some (username, row_email (user_id :: username :: rest)).
Proof.
  intros earlier row later tables user_id username rest Hinit Hfields Hlater.
  unfold init_mapper in Hinit. rewrite read_auth_user_lines_app in Hinit.
  destruct (read_auth_user_lines no_tables earlier) as [t0|]; [|discriminate Hinit].
  cbn [bind read_auth_user_lines] in Hinit.
  destruct (read_row t0 row user_id username rest Hfields) as (t1 & Hread & Hdata & _).
  rewrite Hread in Hinit. cbn [bind] in Hinit.
  destruct (read_auth_user_lines t1 later) as [t2|] eqn:E2; [|discriminate Hinit].
  cbn [bind] in Hinit. apply some_inj_return in Hinit.
  apply some_inj in Hinit. subst tables.
  rewrite (later_rows_keep_user later t1 t2 user_id E2 Hlater), Hdata.
  apply lookup_dict_set_same.
Qed.

Lemma init_mapper_last_row_wins_witness :
  lookup (loaded_auth_user_data two_rows_loaded) "7"
  = Some ("bob", row_email ["7"; "bob"; "x"]).
Proof.
  apply (init_mapper_last_row_wins
           [auth_user_row ["7"; "alice"; "a"; "b"; "c"; "d"; "e"; "alice@example.com"]]
           (auth_user_row ["7"; "bob"; "x"])
           ["-- a line of metadata"]
           two_rows_loaded "7" "bob" ["x"]).
  - reflexivity.
  - reflexivity.
  - intros line [<-|[]] H. discriminate H.
Defined.

(** ** The reducer *)

Lemma value_eqb_eq a b : value_eqb a b = true <-> a = b.
Proof.
  unfold value_eqb. destruct a as [a1 a2], b as [b1 b2]. cbn [fst snd].
  rewrite andb_true_iff, !String.eqb_eq. split.
  - intros [-> ->]. reflexivity.
  - intros H. injection H as -> ->. auto.
Qed.

Lemma value_eqb_refl a : value_eqb a a = true.
Proof. now apply value_eqb_eq. Qed.

Lemma value_eqb_sym a b : value_eqb a b = value_eqb b a.
Proof.
  destruct (value_eqb a b) eqn:E, (value_eqb b a) eqn:E'; auto.
  - apply value_eqb_eq in E. subst. rewrite value_eqb_refl in E'. discriminate.
  - apply value_eqb_eq in E'. subst. rewrite value_eqb_refl in E. discriminate.
Qed.

Lemma count_of_incr counts value value' :
  count_of (incr_count counts value) value'
  = count_of counts value' + (if value_eqb value' value then 1 else 0).
Proof.
  unfold count_of. induction counts as [|entry counts IH]; cbn [incr_count find].
  - cbn [fst snd]. rewrite (value_eqb_sym value value').
    destruct (value_eqb value' value); reflexivity.
  - destruct (value_eqb (fst entry) value) eqn:E; cbn [find fst snd].
    + apply value_eqb_eq in E. subst value.
      rewrite (value_eqb_sym value' (fst entry)).
      destruct (value_eqb (fst entry) value'); cbn [snd]; lia.
    + destruct (value_eqb (fst entry) value') eqn:E'; [|exact IH].
      apply value_eqb_eq in E'. subst value'.
      rewrite E. cbn [snd]. lia.
Qed.

Lemma incr_count_keys counts value key :
  In key (map fst (incr_count counts value)) ->
  key = value \/ In key (map fst counts).
Proof.
  induction counts as [|entry counts IH]; cbn [incr_count map In fst].
  - intros [<-|[]]. now left.
  - destruct (value_eqb (fst entry) value); cbn [map In fst].
    + intros [<-|H]; auto.
    + intros [<-|H]; auto. destruct (IH H); auto.
Qed.

Lemma incr_count_distinct counts value :
  NoDup (map fst counts) -> NoDup (map fst (incr_count counts value)).
Proof.
  induction counts as [|entry counts IH]; cbn [incr_count map fst].
  - intros _. constructor; [intros []|constructor].
  - intros H. inversion H as [|? ? Hnotin Hrest]; subst.
    destruct (value_eqb (fst entry) value) eqn:E; cbn [map fst].
    + now constructor.
    + constructor; [|now apply IH].
      intros Hin. apply incr_count_keys in Hin as [Heq|Hin]; [|contradiction].
      rewrite Heq, value_eqb_refl in E. discriminate.
Qed.

Lemma incr_count_total counts value :
  list_sum (map snd (incr_count counts value)) = S (list_sum (map snd counts)).
Proof.
  induction counts as [|entry counts IH]; cbn [incr_count map snd list_sum fold_right].
  - reflexivity.
  - destruct (value_eqb (fst entry) value); cbn [map snd list_sum fold_right].
    + lia.
    + unfold list_sum in IH. rewrite IH. lia.
Qed.

Lemma count_values_from counts values value :
  count_of (fold_left incr_count values counts) value
  = count_of counts value + occurrences values value.
Proof.
  unfold occurrences. revert counts.
  induction values as [|x values IH]; intros counts; cbn [fold_left filter].
  - cbn. lia.
  - rewrite IH, count_of_incr.
    destruct (value_eqb value x); cbn [List.length]; lia.
Qed.

Lemma count_values_from_empty values value :
  count_of (count_values values) value = occurrences values value.
Proof. unfold count_values. now rewrite count_values_from. Qed.

(** The first loop of the reducer counts occurrences: the count of a value
    is the number of times it occurs among the values, each distinct value
    has one entry, and the counts add up to the number of values. *)
Theorem count_values_counts_occurrences :
  forall values value,
    count_of (count_values values) value = occurrences values value
    /\ NoDup (map fst (count_values values))
    /\ list_sum (map snd (count_values values)) = List.length values.
Proof.
  intros values value. unfold count_values. split; [|split].
  - now rewrite count_values_from.
  - assert (H : forall counts,
               NoDup (map fst counts) ->
               NoDup (map fst (fold_left incr_count values counts))).
    { induction values as [|x values IH]; intros counts Hc; cbn [fold_left]; auto.
      apply IH. now apply incr_count_distinct. }
    apply H. constructor.
  - assert (H : forall counts,
               list_sum (map snd (fold_left incr_count values counts))
               = list_sum (map snd counts) + List.length values).
    { induction values as [|x values IH]; intros counts; cbn [fold_left List.length].
      - lia.
      - rewrite IH, incr_count_total. lia. }
    now rewrite H.
Qed.

Lemma insert_by_count_permutation entry entries :
  Permutation (insert_by_count entry entries) (entry :: entries).
Proof.
  induction entries as [|first rest IH]; cbn [insert_by_count]; [reflexivity|].
  destruct (snd first <=? snd entry)%nat; [reflexivity|].
  rewrite IH. apply perm_swap.
Qed.

Lemma insert_by_count_descending entry entries :
  StronglySorted (fun a b => snd b <= snd a) entries ->
  StronglySorted (fun a b => snd b <= snd a) (insert_by_count entry entries).
Proof.
  induction 1 as [|first rest Hrest IH Hfirst]; cbn [insert_by_count].
  - repeat constructor.
  - destruct (Nat.leb_spec (snd first) (snd entry)) as [Hle|Hgt].
    + constructor; [now constructor|].
      constructor; [exact Hle|].
      eapply Forall_impl; [|exact Hfirst]. cbn. intros e He. lia.
    + constructor; [exact IH|].
      apply Forall_forall. intros e He.
      apply (Permutation_in _ (insert_by_count_permutation entry rest)) in He.
      destruct He as [<-|He]; [lia|].
      rewrite Forall_forall in Hfirst. now apply Hfirst.
Qed.

(** The second loop of the reducer visits every counted value once, larger
    counts first. *)
Theorem sorted_by_count_is_descending_permutation :
  forall counts,
    Permutation (sorted_by_count counts) counts
    /\ StronglySorted (fun a b => snd b <= snd a) (sorted_by_count counts).
Proof.
  intros counts. unfold sorted_by_count.
  induction counts as [|entry counts [IHperm IHsorted]]; cbn [fold_right].
  - split; constructor.
  - split.
    + rewrite insert_by_count_permutation. now constructor.
    + now apply insert_by_count_descending.
Qed.

Lemma sorted_by_count_permutation counts :
  Permutation (sorted_by_count counts) counts.
Proof.
  unfold sorted_by_count.
  induction counts as [|entry counts IH]; cbn [fold_right]; [constructor|].
  rewrite insert_by_count_permutation. now constructor.
Qed.

Lemma written_grows key entries :
  forall out line,
    In line (written out) ->
    In line (written (fold_left (write_count key) entries out)).
Proof.
  induction entries as [|entry entries IH]; intros out line H; cbn [fold_left]; auto.
  apply IH. unfold write_count.
  destruct (format_count_line key (fst entry) (snd entry)); cbn [written]; auto.
  apply in_or_app. now left.
Qed.

Lemma written_has_line key entries :
  forall out entry new_value,
    In entry entries ->
    format_count_line key (fst entry) (snd entry) = Some new_value ->
    In (unicode_strip new_value)
       (written (fold_left (write_count key) entries out)).
Proof.
  induction entries as [|first entries IH]; intros out entry new_value Hin Hformat;
    [destruct Hin|].
  cbn [fold_left]. destruct Hin as [->|Hin].
  - apply written_grows. unfold write_count. rewrite Hformat. cbn [written].
    apply in_or_app. right. now left.
  - now apply (IH _ entry).
Qed.

Lemma counted_value_has_entry counts value :
  0 < count_of counts value -> In (value, count_of counts value) counts.
Proof.
  unfold count_of.
  destruct (find (fun entry => value_eqb (fst entry) value) counts)
    as [entry|] eqn:E; [|lia].
  intros _. apply find_some in E as [Hin Heq].
  apply value_eqb_eq in Heq. subst value. now destruct entry.
Qed.

(** For every value that reaches the reducer, when the key, the source and
    the event type are ASCII, the reducer writes the line
    [key|source|event_type|count], stripped, with the number of
    occurrences of the value as its count. *)
Theorem reducer_writes_count_line :
  forall key values value,
    In value values ->
    is_ascii key = true ->
    is_ascii (snd value) = true ->
    is_ascii (fst value) = true ->
    In (unicode_strip
          (key ++ "|" ++ snd value ++ "|" ++ fst value ++ "|"
               ++ Py.format_nat (occurrences values value)))
       (written (multi_output_reducer key values)).
Proof.
  intros key values value Hin Hkey Hsource Htype.
  unfold multi_output_reducer.
  pose proof (count_values_from_empty values value) as Hcount.
  assert (Hpositive : 0 < occurrences values value).
  { unfold occurrences. apply in_split in Hin as (l1 & l2 & ->).
    rewrite filter_app. cbn [filter]. rewrite value_eqb_refl.
    rewrite length_app. cbn [List.length]. lia. }
  apply (written_has_line key _ _ (value, occurrences values value)).
  - apply (Permutation_in _ (Permutation_sym (sorted_by_count_permutation _))).
    rewrite <- Hcount. apply counted_value_has_entry. lia.
  - unfold format_count_line. cbn [fst snd]. now rewrite Hkey, Hsource, Htype.
Qed.

Lemma reducer_writes_count_line_witness :
  In (unicode_strip
        ("event.problem_id(unicode)" ++ "|" ++ "server" ++ "|" ++ "problem_check"
            ++ "|" ++ Py.format_nat
                        (occurrences [("problem_check", "server");
                                      ("play_video", "browser");
                                      ("problem_check", "server")]
                                     ("problem_check", "server"))))
     (written (multi_output_reducer
                 "event.problem_id(unicode)"
                 [("problem_check", "server"); ("play_video", "browser");
                  ("problem_check", "server")])).
Proof.
  apply (reducer_writes_count_line
           "event.problem_id(unicode)"
           [("problem_check", "server"); ("play_video", "browser");
            ("problem_check", "server")]
           ("problem_check", "server"));
    [now left|reflexivity..].
Defined.

Example reducer_output_sample :
  written (multi_output_reducer
             "event.problem_id(unicode)"
             [("play_video", "browser"); ("problem_check", "server");
              ("problem_check", "server")])
  = ["event.problem_id(unicode)|server|problem_check|2"; String InputId.newline "";
     "event.problem_id(unicode)|browser|play_video|1"; String InputId.newline ""].
Proof. vm_compute. reflexivity. Qed.

Lemma unicode_lstrip_length s :
  String.length (unicode_lstrip s) <= String.length s.
Proof.
  induction s as [|c s IH]; cbn [unicode_lstrip String.length]; [lia|].
  destruct (unicode_space_char c); cbn [String.length]; lia.
Qed.

Lemma unicode_rstrip_length s :
  String.length (unicode_rstrip s) <= String.length s.
Proof.
  induction s as [|c s IH]; cbn [unicode_rstrip String.length]; [lia|].
  destruct (unicode_rstrip s); [destruct (unicode_space_char c)|];
    cbn [String.length] in *; lia.
Qed.

Lemma unicode_strip_length s :
  String.length (unicode_strip s) <= String.length s.
Proof.
  unfold unicode_strip.
  pose proof (unicode_rstrip_length (unicode_lstrip s)).
  pose proof (unicode_lstrip_length s). lia.
Qed.

Lemma reducer_accounting_from key entries :
  forall out,
    let out' := fold_left (write_count key) entries out in
    List.length (written out') + 2 * bad_characters out'
    = List.length (written out) + 2 * bad_characters out + 2 * List.length entries
    /\ (list_sum (map String.length (written out)) <= raw_bytes_written out ->
        list_sum (map String.length (written out')) <= raw_bytes_written out')
    /\ (Forall (fun entry => format_count_line key (fst entry) (snd entry) <> None)
               entries ->
        bad_characters out' = bad_characters out).
Proof.
  induction entries as [|entry entries IH]; intros out; cbn [fold_left].
  - cbn. repeat split; auto; lia.
  - destruct (IH (write_count key out entry)) as (Hlines & Hbytes & Hbad).
    cbv zeta in *. split; [|split].
    + rewrite Hlines. unfold write_count.
      destruct (format_count_line key (fst entry) (snd entry));
        cbn [written bad_characters List.length]; rewrite ?length_app;
        cbn [List.length]; lia.
    + intros H. apply Hbytes. unfold write_count.
      destruct (format_count_line key (fst entry) (snd entry)) as [new_value|];
        cbn [written raw_bytes_written]; [|exact H].
      rewrite map_app, list_sum_app. cbn [map list_sum fold_right String.length].
      pose proof (unicode_strip_length new_value). lia.
    + intros H. inversion H as [|? ? Hentry Hrest]; subst.
      rewrite (Hbad Hrest). unfold write_count.
      destruct (format_count_line key (fst entry) (snd entry)); [reflexivity|].
      congruence.
Qed.

Lemma count_values_keys values :
  forall counts key,
    In key (map fst (fold_left incr_count values counts)) ->
    In key values \/ In key (map fst counts).
Proof.
  induction values as [|x values IH]; intros counts key; cbn [fold_left]; auto.
  intros H. destruct (IH _ _ H) as [Hin|Hin]; [left; now right|].
  apply incr_count_keys in Hin as [->|Hin]; [left; now left|now right].
Qed.

(** The reducer accounts for every distinct value: each is either written
    (two calls of [write], the line and the newline) or skipped as a bad
    character, and none is skipped when everything is ASCII.  The counter
    [Raw Bytes Written] is never less than the number of bytes written: it
    counts the line before [strip]. *)
Theorem reducer_accounts_for_every_value :
  forall key values,
    let out := multi_output_reducer key values in
    List.length (written out) + 2 * bad_characters out
    = 2 * List.length (count_values values)
    /\ list_sum (map String.length (written out)) <= raw_bytes_written out
    /\ (is_ascii key = true ->
        Forall (fun value => is_ascii (fst value) && is_ascii (snd value) = true)
               values ->
        bad_characters out = 0).
Proof.
  intros key values out. subst out. unfold multi_output_reducer.
  destruct (reducer_accounting_from
              key (sorted_by_count (count_values values))
              {| written := []; raw_bytes_written := 0; bad_characters := 0 |})
    as (Hlines & Hbytes & Hbad).
  cbv zeta in *. cbn [written bad_characters raw_bytes_written] in *.
  split; [|split].
  - rewrite Hlines.
    rewrite (Permutation_length (sorted_by_count_permutation _)). cbn. lia.
  - apply Hbytes. cbn. lia.
  - intros Hkey Hvalues. apply Hbad. apply Forall_forall. intros entry Hentry.
    apply (Permutation_in _ (sorted_by_count_permutation _)) in Hentry.
    assert (Hin : In (fst entry) values).
    { destruct (count_values_keys values [] (fst entry)) as [H|[]]; auto.
      now apply in_map. }
    rewrite Forall_forall in Hvalues. specialize (Hvalues _ Hin).
    apply andb_true_iff in Hvalues as [Htype Hsource].
    unfold format_count_line. rewrite Hkey, Hsource, Htype. discriminate.
Qed.

(** ** The mapper *)




Lemma none_or_other {A : Type} (field : value) (a b : A) :
  field = VNone \/ match field with VNone => a | _ => b end = b.
Proof. destruct field; auto. Qed.

(** Every pair that the mapper yields for a record carries the same event
    type signature and source, and its key is a key path under [event], a
    key path under [context] (only when [exclude_context] is off), or the
    marker [attested] (only when [include_attested] is on). *)
Theorem mapper_output_shape :
  forall self COURSE_REGEX_match get_event_and_date_string get_course_id
         get_event_data unicode_container line pairs,
    mapper self COURSE_REGEX_match get_event_and_date_string get_course_id
           get_event_data unicode_container line
    = Return pairs ->
    exists signature source,
      Forall (fun pair =>
                snd pair = (signature, source)
                /\ (proper_prefix "event" (fst pair)
                    \/ (exclude_context self = false
                        /\ proper_prefix "context" (fst pair))
                    \/ (include_attested self = true /\ fst pair = "attested")))
             pairs.
Proof.
  intros self m decode course_of data_of uc line pairs.
  assert (Hempty : forall sig src : string,
             Return ([] : list (string * (string * string))) = Return pairs ->
             exists signature source : string,
               Forall (fun pair =>
                         snd pair = (signature, source)
                         /\ (proper_prefix "event" (fst pair)
                             \/ (exclude_context self = false
                                 /\ proper_prefix "context" (fst pair))
                             \/ (include_attested self = true
                                 /\ fst pair = "attested")))
                      pairs).
  { intros sig src H. apply some_inj_return in H. subst pairs.
    exists sig, src. constructor. }
  specialize (Hempty "" "").
  unfold mapper.
  destruct (decode line) as [[event date_string]|]; [|exact Hempty].
  destruct (course_of event) as [[event_course_id|]|[]];
    try exact Hempty; try discriminate.
  destruct (_ && _)%bool; [exact Hempty|].
  destruct (get_user_info_from_event self uc event) as [user_info|];
    [|discriminate].
  cbn [bind].
  destruct (py_get event "event_type") as [event_type|]; [|discriminate].
  cbn [bind].
  match goal with
  | |- match event_type with VNone => ?a | VBool _ => ?b | _ => _ end = _ -> _ =>
      destruct (none_or_other event_type a b) as [-> | ->]; [exact Hempty|]
  end.
  destruct (py_text event_type) as [event_type_text|]; [|discriminate].
  cbn [bind].
  destruct (canonicalize_event_type m event_type_text _ _ _ _ _)
    as [[signature|]|]; [|exact Hempty|discriminate].
  cbn [bind].
  destruct (py_get event "event_source") as [event_source|]; [|discriminate].
  cbn [bind].
  match goal with
  | |- match event_source with VNone => ?a | VBool _ => ?b | _ => _ end = _ -> _ =>
      destruct (none_or_other event_source a b) as [-> | ->]; [exact Hempty|]
  end.
  cbv zeta.
  set (event_keys := match data_of event with
                     | Some event_data =>
                         get_key_names event_data "event" (Some ["POST"; "GET"])
                                       (Some user_info)
                     | None => []
                     end).
  assert (Hevent_keys : Forall (proper_prefix "event") event_keys).
  { subst event_keys. destruct (data_of event); [|constructor].
    apply walker_extends_prefix. }
  clearbody event_keys.
  match goal with
  | |- bind ?step _ = _ -> _ => destruct step as [key_list|] eqn:Hstep; [|discriminate]
  end.
  cbn [bind].
  assert (Hkeys : Forall (fun key =>
                            proper_prefix "event" key
                            \/ (exclude_context self = false
                                /\ proper_prefix "context" key))
                         key_list).
  { destruct (exclude_context self); cbn [negb] in Hstep.
    - apply some_inj_return in Hstep. subst key_list.
      eapply Forall_impl; [|exact Hevent_keys]. intros key H. now left.
    - destruct (py_get event "context") as [context|]; [|discriminate Hstep].
      cbn [bind] in Hstep.
      match type of Hstep with
      | match context with VNone => ?a | VBool _ => ?b | _ => _ end = _ =>
          destruct (none_or_other context a b) as [Hnone | Hother];
            [subst context|rewrite Hother in Hstep]
      end; apply some_inj_return in Hstep; subst key_list.
      + eapply Forall_impl; [|exact Hevent_keys]. intros key H. now left.
      + apply Forall_app. split.
        * eapply Forall_impl; [|exact Hevent_keys]. intros key H. now left.
        * eapply Forall_impl; [|apply walker_extends_prefix].
          intros key H. right. now split. }
  clear Hstep.
  set (all_keys := if include_attested self then (key_list ++ ["attested"])%list
                   else key_list).
  assert (Hall : Forall (fun key =>
                           proper_prefix "event" key
                           \/ (exclude_context self = false
                               /\ proper_prefix "context" key)
                           \/ (include_attested self = true /\ key = "attested"))
                        all_keys).
  { subst all_keys. destruct (include_attested self).
    - apply Forall_app. split.
      + eapply Forall_impl; [|exact Hkeys]. intros key [H|H]; auto.
      + constructor; [|constructor]. right. right. now split.
    - eapply Forall_impl; [|exact Hkeys]. intros key [H|H]; auto. }
  clearbody all_keys.
  destruct all_keys as [|first_key more_keys]; [exact Hempty|].
  destruct (py_text event_source) as [source_text|]; [|discriminate].
  cbn [bind]. intros H. apply some_inj_return in H. subst pairs.
  exists signature, source_text.
  apply Forall_map. eapply Forall_impl; [|exact Hall].
  intros key H. cbn [fst snd]. now split.
Qed.

Lemma mapper_output_shape_witness :
  exists signature source,
    Forall (fun pair =>
              snd pair = (signature, source)
              /\ (proper_prefix "event" (fst pair)
                  \/ (exclude_context sample_task_unchecked = false
                      /\ proper_prefix "context" (fst pair))
                  \/ (include_attested sample_task_unchecked = true
                      /\ fst pair = "attested")))
           [("context.user_id(int)", ("problem_check", "server"))].
Proof.
  apply (mapper_output_shape
           sample_task_unchecked (fun _ => None)
           (fun _ => Some (event_with_digit_username, "2014-05-01"))
           (fun _ => Return (Some "edX/DemoX/2014")) (fun _ => None) (fun _ => "")
           "line").
  reflexivity.
Defined.

(** ** The directory and the hints together *)

Lemma later_rows_keep_username lines :
  forall tables tables' username,
    read_auth_user_lines tables lines = Return tables' ->
    (forall later,
        In later lines ->
        Py.contains (String field_separator "") later = true ->
        item (Py.split field_separator later) 1 <> username) ->
    lookup (loaded_username_map tables') username
    = lookup (loaded_username_map tables) username.
Proof.
  induction lines as [|line lines IH]; intros tables tables' username;
    cbn [read_auth_user_lines].
  - intros H _. apply some_inj_return in H. now subst.
  - intros H Hlater.
    destruct (read_auth_user_line tables line) as [t1|] eqn:E1; [|discriminate H].
    cbn [bind] in H.
    rewrite (IH t1 tables' username H) by (intros; apply Hlater; cbn; auto).
    unfold read_auth_user_line in E1.
    destruct (Py.contains (String field_separator "") line) eqn:Hsep;
      cbn [negb] in E1.
    + pose proof Hsep as Hfields. rewrite contains_char in Hfields.
      apply split_with_separator in Hfields.
      destruct (Py.split field_separator line) as [|f0 [|f1 rest]] eqn:Hsplit;
        cbn [List.length] in Hfields; try lia.
      destruct (read_row tables line f0 f1 rest Hsplit) as (t1' & Hread & _ & Hnames).
      unfold read_auth_user_line in Hread.
      rewrite Hsep, Hsplit in Hread. cbn [negb] in Hread.
      rewrite Hread in E1. apply some_inj_return in E1. subst t1.
      rewrite Hnames. apply lookup_dict_set_other.
      intros ->. apply (Hlater line); [now left|exact Hsep|].
      now rewrite Hsplit.
    + apply some_inj_return in E1. now subst t1.
Qed.

Lemma user_info_from_username_map self unicode_container event raw username table id
      user_info :
  check_user self = true ->
  username_map self = Some table ->
  py_get event "username" = Return raw ->
  py_strip raw = Return username ->
  lookup table username = Some id ->
  get_user_info_from_event self unicode_container event = Return user_info ->
  lookup user_info "user_id_from_username" = Some id.
Proof.
  intros Hcheck Htable Hraw Hstrip Hid.
  unfold get_user_info_from_event. rewrite Hcheck, Hraw. cbn [negb bind].
  rewrite Hstrip. cbn [bind].
  destruct (username_key username) as [key|]; [|discriminate].
  cbn [bind].
  destruct (py_get_or_empty event "context") as [context|]; [|discriminate].
  cbn [bind].
  destruct (py_get context "user_id") as [user_id|]; [|discriminate].
  cbn [bind].
  destruct (py_get_or_empty event "event") as [payload|]; [|discriminate].
  cbn [bind].
  destruct (py_get payload "user_id") as [event_user_id|]; [|discriminate].
  cbn [bind].
  match goal with
  | |- bind ?step _ = _ -> _ => destruct step as [ui3|]; [|discriminate]
  end.
  cbn [bind].
  match goal with
  | |- bind ?step _ = _ -> _ => destruct step as [ui4|]; [|discriminate]
  end.
  cbn [bind]. rewrite Htable.
  assert (Htruthy : truthy (Some table) = true).
  { destruct table; [discriminate Hid|reflexivity]. }
  rewrite Htruthy, Hid. intros H. apply some_inj_return in H. subst user_info.
  apply lookup_dict_set_same.
Qed.

(** Once [init_mapper] has read the directory, an event whose username is
    ASCII and, stripped, is that of a row gets the hint
    [user_id_from_username] with the user id of the last such row. *)
Theorem directory_gives_user_id_hint :
  forall self earlier row later tables user_id username rest
         unicode_container event raw user_info,
    init_mapper (Some (earlier ++ row :: later)%list) = Return (Some tables) ->
    Py.split field_separator row = user_id :: username :: rest ->
    (forall line,
        In line later ->
        Py.contains (String field_separator "") line = true ->
        item (Py.split field_separator line) 1 <> username) ->
    check_user self = true ->
    py_get event "username" = Return raw ->
    ascii_text raw = true ->
    py_strip raw = Return username ->
    get_user_info_from_event (with_tables self (Some tables)) unicode_container event
    = Return user_info ->
    lookup user_info "user_id_from_username" = Some user_id.
Proof.
  intros self earlier row later tables user_id username rest uc event raw user_info
         Hinit Hfields Hlater Hcheck Hraw _ Hstrip.
  apply (user_info_from_username_map
           (with_tables self (Some tables)) uc event raw username
           (loaded_username_map tables) user_id user_info);
    auto.
  unfold init_mapper in Hinit. rewrite read_auth_user_lines_app in Hinit.
  destruct (read_auth_user_lines no_tables earlier) as [t0|]; [|discriminate Hinit].
  cbn [bind read_auth_user_lines] in Hinit.
  destruct (read_row t0 row user_id username rest Hfields) as (t1 & Hread & _ & Hnames).
  rewrite Hread in Hinit. cbn [bind] in Hinit.
  destruct (read_auth_user_lines t1 later) as [t2|] eqn:E2; [|discriminate Hinit].
  cbn [bind] in Hinit. apply some_inj_return in Hinit.
  apply some_inj in Hinit. subst tables.
  rewrite (later_rows_keep_username later t1 t2 username E2 Hlater), Hnames.
  apply lookup_dict_set_same.
Qed.

Lemma directory_gives_user_id_hint_witness :
  lookup [("username-5", "alice"); ("user-id", "12345");
          ("user_id_from_username", "7")]
         "user_id_from_username"
  = Some "7".
Proof.
  apply (directory_gives_user_id_hint
           sample_task
           [auth_user_row ["7"; "alice"; "a"; "b"; "c"; "d"; "e"; "alice@example.com"]]
           (auth_user_row ["7"; "alice"; "x"])
           ["-- a line of metadata"]
           {| loaded_auth_user_data := [("7", ("alice", "<missing>"))];
              loaded_username_map := [("alice", "7")];
              lines_read := 3;
              emails_missing := 1 |}
           "7" "alice" ["x"] (fun _ => "") event_with_short_username
           (VUnicode " alice ")
           [("username-5", "alice"); ("user-id", "12345");
            ("user_id_from_username", "7")]);
    try reflexivity.
  intros line [<-|[]] H. discriminate H.
Defined.
